(** * tlsredis: a shallow embedding of [GetClient] (src/tlsredis.go)

    The package has one exported function, [GetClient], and one
    package-level registry, [rcs].  The embedding threads the mutable
    parts explicitly: the registry, the clients built so far, the log,
    and the pointee of the [*Options] argument.  Calls into other
    packages whose result depends on the outside world (net/url,
    keyman, crypto/tls file loading) are fields of a [Library] record;
    the small pure helpers of the Go standard library that the
    results depend on (path.Split, strconv.Atoi, strings.EqualFold)
    are written out. *)

From Stdlib Require Import ZArith String Ascii List Bool Lia.
From stdpp Require Import base gmap strings list.

Import ListNotations.
Local Open Scope string_scope.
Local Open Scope Z_scope.

(** ** Results of fallible calls *)

Inductive result (E A : Type) : Type :=
| Ok (a : A)
| Err (e : E).
Arguments Ok {E A} a.
Arguments Err {E A} e.

(** Errors produced by the libraries are carried as their message. *)
Definition LibError : Type := string.

(** ** Data declared outside the package *)

(** net/url: the fields of [url.URL] that [GetClient] reads.
    [u.User.Password()] returns the pair [(password, passwordSet)]. *)
Record Userinfo : Type := {
  username : string;
  password : string;
  passwordSet : bool
}.

Record URL : Type := {
  Scheme : string;
  User : option Userinfo;
  Host : string;
  Path : string
}.

Definition Userinfo_Password (ui : Userinfo) : string * bool :=
  (password ui, passwordSet ui).

(** time.Duration is a count of nanoseconds. *)
Definition Duration : Type := Z.
Definition Second : Duration := 1000000000.

(** net.Dialer, the two fields set on lines 92-95. *)
Record Dialer : Type := {
  Timeout : Duration;
  KeepAlive : Duration
}.

(** keyman.Certificate and tls.Certificate, named by their PEM content. *)
Inductive Certificate : Type := PEMCert (pem : string).
Inductive KeyPair : Type := PEMKeyPair (certPEM keyPEM : string).

Definition CertPool : Type := list Certificate.

(** line 119: [cert.PoolContainingCert()], a pool holding that one
    certificate. *)
Definition PoolContainingCert (cert : Certificate) : CertPool := [cert].

(** tls.Config, the three fields set on lines 107-131.  [RootCAs = None]
    is Go's nil pool: the host's root set is used.
    [ClientSessionCache] is the capacity given to
    [tls.NewLRUClientSessionCache]. *)
Record TLSConfig : Type := {
  ClientSessionCache : Z;
  RootCAs : option CertPool;
  Certificates : list KeyPair
}.

(** The two closures assigned to [dialFunc] (lines 101-103 and
    133-135), as data: each captures [dialer] and [u.Host], the second
    also [tlsConfig]. *)
Inductive DialFunc : Type :=
| DialTCP (dialer : Dialer) (addr : string)
| DialWithDialer (dialer : Dialer) (addr : string) (tlsConfig : TLSConfig).

Definition handshakes (f : DialFunc) : bool :=
  match f with
  | DialTCP _ _ => false
  | DialWithDialer _ _ _ => true
  end.

Definition dial_addr (f : DialFunc) : string :=
  match f with
  | DialTCP _ a => a
  | DialWithDialer _ a _ => a
  end.

Definition dial_dialer (f : DialFunc) : Dialer :=
  match f with
  | DialTCP d _ => d
  | DialWithDialer d _ _ => d
  end.

(** redis.Options (gopkg.in/redis.v5): the four fields [GetClient]
    writes are named; every other field is passed through untouched and
    is carried as one list of named values.  [Dialer_] is the field
    [Dialer], nil when [None]; the plain name is taken by net.Dialer. *)
Record RedisOptions : Type := {
  Dialer_ : option DialFunc;
  Password : string;
  DB : Z;
  PoolSize : Z;
  PassThrough : list (string * Z)
}.

(** ** Data declared by the package *)

(** lines 27-56 *)
Record Options : Type := {
  redis_Options : RedisOptions;
  RedisURL : string;
  RedisCAFile : string;
  ClientPKFile : string;
  ClientCertFile : string;
  DialTimeout : Duration;
  TCPKeepAlive : Duration
}.

(** A [*redis.Client] is identified by the order of its construction. *)
Abbreviation Client := nat.

(** golog calls, kept as format and arguments. *)
Inductive Level : Type := DEBUG | ERROR.

Inductive LogArg : Type :=
| AStr (s : string)
| AInt (n : Z)
| ADuration (d : Duration)
| AErr (e : LibError).

Record LogEntry : Type := {
  level : Level;
  format : string;
  args : list LogArg
}.

(** The errors [GetClient] builds with fmt.Errorf. *)
Inductive Error : Type :=
| UnableToParse (err : LibError)          (* line 63 *)
| NoHost                                  (* line 67 *)
| UnableToLoadCA (err2 : LibError)        (* line 117 *)
| UnableToLoadKeyPair (err2 : LibError).  (* line 128 *)

Definition Error_string (e : Error) : string :=
  match e with
  | UnableToParse err => "Unable to parse Redis address: " ++ err
  | NoHost =>
      "Please provide a Redis URL of the form 'redis[s]://[user:pass]@host:port[/db]'"
  | UnableToLoadCA err2 => "Unable to load RedisCAFile: " ++ err2
  | UnableToLoadKeyPair err2 =>
      "Unable to load Client certificate/key pair: " ++ err2
  end.

(** The two kinds of failure: a URL that does not parse or has no host,
    and a certificate file that was named but does not load. *)
Definition isParseError (e : Error) : bool :=
  match e with
  | UnableToParse _ | NoHost => true
  | _ => false
  end.

Definition isConfigError (e : Error) : bool :=
  match e with
  | UnableToLoadCA _ | UnableToLoadKeyPair _ => true
  | _ => false
  end.

(** Process state: the registry [rcs] (line 23), every client built by
    [redis.NewClient] with the options it was given, and the log. *)
Record State : Type := {
  rcs : gmap string Client;
  clients : list RedisOptions;
  log : list LogEntry
}.

Definition init : State := {| rcs := ∅; clients := []; log := [] |}.

Definition constructed (st : State) : nat := List.length (clients st).

(** What the outside world answers. *)
Record Library : Type := {
  url_Parse : string → result LibError URL;
  keyman_LoadCertificateFromFile : string → result LibError Certificate;
  tls_LoadX509KeyPair : string → string → result LibError KeyPair
}.

(** ** Standard-library helpers *)

(** path.Split: [i := LastIndex(path, "/"); return path[:i+1], path[i+1:]]. *)
Fixpoint LastIndexByte_from (s : string) (c : ascii) (i last : Z) : Z :=
  match s with
  | EmptyString => last
  | String a s' =>
      LastIndexByte_from s' c (i + 1) (if Ascii.eqb a c then i else last)
  end.

Definition LastIndexByte (s : string) (c : ascii) : Z :=
  LastIndexByte_from s c 0 (-1).

Definition slice_to (s : string) (j : Z) : string :=
  substring 0 (Z.to_nat j) s.

Definition slice_from (s : string) (i : Z) : string :=
  substring (Z.to_nat i) (String.length s - Z.to_nat i) s.

Definition path_Split (p : string) : string * string :=
  let i := LastIndexByte p "/" in
  (slice_to p (i + 1), slice_from p (i + 1)).

(** strconv.Atoi on a 64-bit [int]: an optional sign, then one or more
    decimal digits, the value within the range of int64. *)
Definition minInt : Z := - 2 ^ 63.
Definition maxInt : Z := 2 ^ 63 - 1.

Definition digit_of (ch : ascii) : option Z :=
  let n := Z.of_nat (nat_of_ascii ch) - 48 in
  if (0 <=? n) && (n <=? 9) then Some n else None.

Fixpoint digits (s : string) (n : Z) : option Z :=
  match s with
  | EmptyString => Some n
  | String ch s' =>
      match digit_of ch with
      | Some d => digits s' (n * 10 + d)
      | None => None
      end
  end.

Definition ErrSyntax : LibError := "invalid syntax".
Definition ErrRange : LibError := "value out of range".

Definition strconv_Atoi (s0 : string) : result LibError Z :=
  let '(neg, s) :=
    match s0 with
    | String "-" s' => (true, s')
    | String "+" s' => (false, s')
    | _ => (false, s0)
    end in
  match s with
  | EmptyString => Err ErrSyntax
  | _ =>
      match digits s 0 with
      | None => Err ErrSyntax
      | Some n =>
          let v := if neg then - n else n in
          if (minInt <=? v) && (v <=? maxInt) then Ok v else Err ErrRange
      end
  end.

(** strings.EqualFold, the byte loop the function starts with.  The
    branch taken for bytes of 0x80 and above is left out: url.Parse
    accepts only ASCII letters, digits, [+], [-] and [.] in a scheme, so
    the scheme never reaches it. *)
Definition byte (c : ascii) : Z := Z.of_nat (nat_of_ascii c).

Definition fold_eq (sr tr : ascii) : bool :=
  if Ascii.eqb tr sr then true
  else
    let '(sr, tr) := if byte tr <? byte sr then (tr, sr) else (sr, tr) in
    (byte "A" <=? byte sr) && (byte sr <=? byte "Z")
      && (byte tr =? byte sr + byte "a" - byte "A").

Fixpoint strings_EqualFold (s t : string) : bool :=
  match s, t with
  | String sr s', String tr t' =>
      if fold_eq sr tr then strings_EqualFold s' t' else false
  | EmptyString, EmptyString => true
  | _, _ => false
  end.

(** ASCII lower-casing, to say what the loop computes. *)
Definition lower (c : ascii) : ascii :=
  if (byte "A" <=? byte c) && (byte c <=? byte "Z")
  then ascii_of_nat (nat_of_ascii c + 32) else c.

Fixpoint to_lower (s : string) : string :=
  match s with
  | EmptyString => EmptyString
  | String c s' => String (lower c) (to_lower s')
  end.

(** ** Field updates through the [*Options] pointer *)

Definition set_PoolSize (n : Z) (o : Options) : Options :=
  let r := redis_Options o in
  {| redis_Options :=
       {| Dialer_ := Dialer_ r; Password := Password r; DB := DB r;
          PoolSize := n; PassThrough := PassThrough r |};
     RedisURL := RedisURL o; RedisCAFile := RedisCAFile o;
     ClientPKFile := ClientPKFile o; ClientCertFile := ClientCertFile o;
     DialTimeout := DialTimeout o; TCPKeepAlive := TCPKeepAlive o |}.

Definition set_Dialer (f : DialFunc) (o : Options) : Options :=
  let r := redis_Options o in
  {| redis_Options :=
       {| Dialer_ := Some f; Password := Password r; DB := DB r;
          PoolSize := PoolSize r; PassThrough := PassThrough r |};
     RedisURL := RedisURL o; RedisCAFile := RedisCAFile o;
     ClientPKFile := ClientPKFile o; ClientCertFile := ClientCertFile o;
     DialTimeout := DialTimeout o; TCPKeepAlive := TCPKeepAlive o |}.

Definition set_DB (n : Z) (o : Options) : Options :=
  let r := redis_Options o in
  {| redis_Options :=
       {| Dialer_ := Dialer_ r; Password := Password r; DB := n;
          PoolSize := PoolSize r; PassThrough := PassThrough r |};
     RedisURL := RedisURL o; RedisCAFile := RedisCAFile o;
     ClientPKFile := ClientPKFile o; ClientCertFile := ClientCertFile o;
     DialTimeout := DialTimeout o; TCPKeepAlive := TCPKeepAlive o |}.

Definition set_Password (p : string) (o : Options) : Options :=
  let r := redis_Options o in
  {| redis_Options :=
       {| Dialer_ := Dialer_ r; Password := p; DB := DB r;
          PoolSize := PoolSize r; PassThrough := PassThrough r |};
     RedisURL := RedisURL o; RedisCAFile := RedisCAFile o;
     ClientPKFile := ClientPKFile o; ClientCertFile := ClientCertFile o;
     DialTimeout := DialTimeout o; TCPKeepAlive := TCPKeepAlive o |}.

(** ** Effects on the process state *)

Definition logf (lv : Level) (fmt : string) (a : list LogArg)
    (st : State) : State :=
  {| rcs := rcs st; clients := clients st;
     log := log st ++ [{| level := lv; format := fmt; args := a |}] |}.

Definition Debugf := logf DEBUG.
Definition Errorf := logf ERROR.
Definition Debug (msg : string) : State → State := logf DEBUG msg [].

(** line 145: [redis.NewClient(&opts.Options)] builds one more client
    from the options it is handed; the client is recorded with the
    value those options hold at the call. *)
Definition redis_NewClient (o : RedisOptions) (st : State) : Client * State :=
  (List.length (clients st),
   {| rcs := rcs st; clients := clients st ++ [o]; log := log st |}).

(** line 146: [rcs[u.Host] = rc] *)
Definition register (host : string) (rc : Client) (st : State) : State :=
  {| rcs := <[host := rc]> (rcs st); clients := clients st; log := log st |}.

(** ** GetClient *)

Section Package.
Context (lib : Library).

(** lines 61-72: parse, demand a host, consult the registry. *)
Inductive Lookup : Type :=
| Found (rc : Client)
| Missing (u : URL)
| Rejected (e : Error).

Definition lookup (opts : Options) (st : State) : Lookup :=
  match url_Parse lib (RedisURL opts) with
  | Err err => Rejected (UnableToParse err)
  | Ok u =>
      if String.eqb (Host u) "" then Rejected NoHost
      else
        match rcs st !! Host u with
        | Some rc => Found rc
        | None => Missing u
        end
  end.

(** lines 75-77 *)
Definition default_PoolSize (opts : Options) : Options :=
  if PoolSize (redis_Options opts) =? 0 then set_PoolSize 3 opts else opts.

(** lines 79-90 *)
Definition database (u : URL) (st : State) : Z * State :=
  let '(db, st) :=
    if (0 <? Z.of_nat (String.length (Path u))) then
      let st :=
        Debugf "Trying to determine database number from path: %v"
          [AStr (Path u)] st in
      let '(_, dbstring) := path_Split (Path u) in
      match strconv_Atoi dbstring with
      | Err err2 =>
          (0, Errorf "Unable to get database number from path %v: %v"
                [AStr (Path u); AErr err2] st)
      | Ok _db => (_db, st)
      end
    else (0, st) in
  (db, Debugf "Using database %d" [AInt db] st).

(** lines 92-99 *)
Definition new_Dialer (opts : Options) (st : State) : Dialer * State :=
  let dialer :=
    {| Timeout := DialTimeout opts; KeepAlive := TCPKeepAlive opts |} in
  if Timeout dialer =? 0 then
    let dialer := {| Timeout := 30 * Second; KeepAlive := KeepAlive dialer |} in
    (dialer, Debugf "Defaulted dial timeout to %v" [ADuration (Timeout dialer)] st)
  else (dialer, st).

(** lines 111-120 *)
Definition root_CAs (opts : Options) (st : State)
    : result Error (option CertPool) * State :=
  if String.eqb (RedisCAFile opts) "" then
    (Ok None, Debugf "Not using custom Redis CA" [] st)
  else
    let st :=
      Debugf "Adding custom Redis CA from: %v" [AStr (RedisCAFile opts)] st in
    match keyman_LoadCertificateFromFile lib (RedisCAFile opts) with
    | Err err2 => (Err (UnableToLoadCA err2), st)
    | Ok cert => (Ok (Some (PoolContainingCert cert)), st)
    end.

(** lines 122-131 *)
Definition client_Certificates (opts : Options) (st : State)
    : result Error (list KeyPair) * State :=
  if String.eqb (ClientPKFile opts) "" || String.eqb (ClientCertFile opts) ""
  then (Ok [], Debug "Not enabling client TLS authentication" st)
  else
    let st :=
      Debugf "Enabling client TLS authentication using pk %v and cert %v"
        [AStr (ClientPKFile opts); AStr (ClientCertFile opts)] st in
    match tls_LoadX509KeyPair lib (ClientCertFile opts) (ClientPKFile opts) with
    | Err err2 => (Err (UnableToLoadKeyPair err2), st)
    | Ok cert => (Ok [cert], st)
    end.

(** lines 106-131: the [tls.Config] of an encrypted connection. *)
Definition new_tlsConfig (opts : Options) (st : State)
    : result Error TLSConfig * State :=
  let st := Debug "Using encrypted connection to Redis" st in
  match root_CAs opts st with
  | (Err e, st) => (Err e, st)
  | (Ok roots, st) =>
      match client_Certificates opts st with
      | (Err e, st) => (Err e, st)
      | (Ok certs, st) =>
          (Ok {| ClientSessionCache := 1000; RootCAs := roots;
                 Certificates := certs |}, st)
      end
  end.

(** lines 101-136 *)
Definition new_dialFunc (u : URL) (dialer : Dialer) (opts : Options)
    (st : State) : result Error DialFunc * State :=
  let dialFunc := DialTCP dialer (Host u) in
  if strings_EqualFold (Scheme u) "rediss" then
    match new_tlsConfig opts st with
    | (Err e, st) => (Err e, st)
    | (Ok tlsConfig, st) => (Ok (DialWithDialer dialer (Host u) tlsConfig), st)
    end
  else (Ok dialFunc, st).

(** lines 140-143 *)
Definition set_userinfo_Password (u : URL) (opts : Options) : Options :=
  match User u with
  | Some ui =>
      let '(redisPass, _) := Userinfo_Password ui in
      set_Password redisPass opts
  | None => opts
  end.

(** lines 74-147: what a call does once the registry has no entry. *)
Definition create (u : URL) (opts : Options) (st : State)
    : result Error Client * Options * State :=
  let opts := default_PoolSize opts in
  let '(db, st) := database u st in
  let '(dialer, st) := new_Dialer opts st in
  match new_dialFunc u dialer opts st with
  | (Err e, st) => (Err e, opts, st)
  | (Ok dialFunc, st) =>
      let opts := set_Dialer dialFunc opts in
      let opts := set_DB db opts in
      let opts := set_userinfo_Password u opts in
      let '(rc, st) := redis_NewClient (redis_Options opts) st in
      let st := register (Host u) rc st in
      (Ok rc, opts, st)
  end.

(** lines 60-148.  The call returns the client or the error, together
    with the value [*opts] holds afterwards and the new process state. *)
Definition GetClient (opts : Options) (st : State)
    : result Error Client * Options * State :=
  match lookup opts st with
  | Rejected e => (Err e, opts, st)
  | Found rc => (Ok rc, opts, st)
  | Missing u => create u opts st
  end.

(** ** Calls one after another *)

Fixpoint run (calls : list Options) (st : State)
    : list (result Error Client) * State :=
  match calls with
  | [] => ([], st)
  | opts :: calls' =>
      let '(r, _, st1) := GetClient opts st in
      let '(rs, st2) := run calls' st1 in
      (r :: rs, st2)
  end.

(** ** Calls that overlap

    [GetClient] takes no lock.  A goroutine inside it reads [rcs] on
    line 70 and writes it on line 146; another goroutine may run between
    the two.  A goroutine is at the entry, past a miss on line 70, or
    has returned. *)
Inductive PC : Type :=
| AtEntry
| PastMiss (u : URL)
| Returned (r : result Error Client).

Record Goroutine : Type := {
  g_opts : Options;
  g_pc : PC
}.

Definition go (opts : Options) : Goroutine :=
  {| g_opts := opts; g_pc := AtEntry |}.

Definition step (g : Goroutine) (st : State) : Goroutine * State :=
  match g_pc g with
  | AtEntry =>
      match lookup (g_opts g) st with
      | Rejected e => ({| g_opts := g_opts g; g_pc := Returned (Err e) |}, st)
      | Found rc => ({| g_opts := g_opts g; g_pc := Returned (Ok rc) |}, st)
      | Missing u => ({| g_opts := g_opts g; g_pc := PastMiss u |}, st)
      end
  | PastMiss u =>
      let '(r, opts, st) := create u (g_opts g) st in
      ({| g_opts := opts; g_pc := Returned r |}, st)
  | Returned _ => (g, st)
  end.

(** A schedule names, step by step, the goroutine that runs next. *)
Fixpoint interleave (sched : list nat) (gs : list Goroutine) (st : State)
    : list Goroutine * State :=
  match sched with
  | [] => (gs, st)
  | i :: sched' =>
      match gs !! i with
      | Some g =>
          let '(g', st') := step g st in
          interleave sched' (<[i := g']> gs) st'
      | None => interleave sched' gs st
      end
  end.

Definition returns (gs : list Goroutine) : list (option (result Error Client)) :=
  map (λ g, match g_pc g with Returned r => Some r | _ => None end) gs.

End Package.

(** ** Worked inputs

    What url.Parse returns on the URLs used in the examples below, and a
    file system with one CA certificate and one client pair that load;
    every other path fails to load. *)
Definition parsed (scheme : string) (user : option Userinfo)
    (host path : string) : result LibError URL :=
  Ok {| Scheme := scheme; User := user; Host := host; Path := path |}.

Definition userinfo (name pw : string) : option Userinfo :=
  Some {| username := name; password := pw; passwordSet := true |}.

Definition example_Parse (rawURL : string) : result LibError URL :=
  if String.eqb rawURL "redis://user:pw@host:6379/2" then
    parsed "redis" (userinfo "user" "pw") "host:6379" "/2"
  else if String.eqb rawURL "redis://other:pw@host:6379/2" then
    parsed "redis" (userinfo "other" "pw") "host:6379" "/2"
  else if String.eqb rawURL "rediss://host:6380/bogus" then
    parsed "rediss" None "host:6380" "/bogus"
  else if String.eqb rawURL "redis:///1" then
    parsed "redis" None "" "/1"
  else if String.eqb rawURL "redis://host:6379/-1" then
    parsed "redis" None "host:6379" "/-1"
  else if String.eqb rawURL "redis://host:6379" then
    parsed "redis" None "host:6379" ""
  else if String.eqb rawURL "redis://host:6379/7" then
    parsed "redis" None "host:6379" "/7"
  else if String.eqb rawURL "rediss://host:6379" then
    parsed "rediss" None "host:6379" ""
  else if String.eqb rawURL "rediss://host:6380" then
    parsed "rediss" None "host:6380" ""
  else if String.eqb rawURL "http://host:6379" then
    parsed "http" None "host:6379" ""
  else if String.eqb rawURL "//host:6379" then
    parsed "" None "host:6379" ""
  else Err "missing protocol scheme".

Definition example_lib : Library :=
  {| url_Parse := example_Parse;
     keyman_LoadCertificateFromFile := λ file,
       if String.eqb file "ca.pem" then Ok (PEMCert "CA")
       else Err "no such file or directory";
     tls_LoadX509KeyPair := λ certFile keyFile,
       if String.eqb certFile "client.crt" && String.eqb keyFile "client.key"
       then Ok (PEMKeyPair "CLIENT CERT" "CLIENT KEY")
       else Err "no such file or directory" |}.

Definition zero_RedisOptions : RedisOptions :=
  {| Dialer_ := None; Password := ""; DB := 0; PoolSize := 0;
     PassThrough := [] |}.

(** [&Options{RedisURL: rawURL}] *)
Definition for_URL (rawURL : string) : Options :=
  {| redis_Options := zero_RedisOptions; RedisURL := rawURL;
     RedisCAFile := ""; ClientPKFile := ""; ClientCertFile := "";
     DialTimeout := 0; TCPKeepAlive := 0 |}.

(** [&Options{RedisURL: rawURL, RedisCAFile: ca, ClientPKFile: pk,
    ClientCertFile: cert}] *)
Definition with_files (rawURL ca pk cert : string) : Options :=
  {| redis_Options := zero_RedisOptions; RedisURL := rawURL;
     RedisCAFile := ca; ClientPKFile := pk; ClientCertFile := cert;
     DialTimeout := 0; TCPKeepAlive := 0 |}.

(** [&Options{Options: redis.Options{Password: pw}, RedisURL: rawURL}] *)
Definition with_Password (rawURL pw : string) : Options :=
  {| redis_Options :=
       {| Dialer_ := None; Password := pw; DB := 0; PoolSize := 0;
          PassThrough := [] |};
     RedisURL := rawURL;
     RedisCAFile := ""; ClientPKFile := ""; ClientCertFile := "";
     DialTimeout := 0; TCPKeepAlive := 0 |}.

(** ** Properties stated about states *)

(** The client [o] dials [host]. *)
Definition dials (host : string) (o : RedisOptions) : Prop :=
  ∃ f, Dialer_ o = Some f ∧ dial_addr f = host.

(** The registry and the clients built so far correspond one to one:
    a registered handle is a built client that dials the key it is
    registered under, and every built client is registered under the
    address it dials. *)
Definition registry_ok (st : State) : Prop :=
  (∀ host rc, rcs st !! host = Some rc →
     ∃ o, clients st !! rc = Some o ∧ dials host o)
  ∧ (∀ rc o, clients st !! rc = Some o →
     ∃ f, Dialer_ o = Some f ∧ rcs st !! dial_addr f = Some rc).

(** Goroutines [gs] have all returned the same client. *)
Definition all_returned (rc : Client) (gs : list Goroutine) : Prop :=
  Forall (λ g, g_pc g = Returned (Ok rc)) gs.

(** The [tls.Config] a client dials with, if it dials through TLS. *)
Definition tls_of (o : RedisOptions) : option TLSConfig :=
  match Dialer_ o with
  | Some (DialWithDialer _ _ tlsConfig) => Some tlsConfig
  | _ => None
  end.

(** lines 53-55: a [KeepAlive] of zero is the dialer's setting for no
    keepalives. *)
Definition keepalives_disabled (d : Dialer) : bool := KeepAlive d =? 0.

(** The URL with the user name of its userinfo erased. *)
Definition without_username (u : URL) : URL :=
  {| Scheme := Scheme u;
     User :=
       match User u with
       | Some ui =>
           Some {| username := ""; password := password ui;
                   passwordSet := passwordSet ui |}
       | None => None
       end;
     Host := Host u;
     Path := Path u |}.

(** The 256 bytes. *)
Definition all_bytes : list ascii := map ascii_of_nat (seq 0 256).

(** Every registered handle is a built client that dials the key it is
    registered under. *)
Definition registered_dial (st : State) : Prop :=
  ∀ host rc, rcs st !! host = Some rc →
    ∃ o, clients st !! rc = Some o ∧ dials host o.

(** What a goroutine holds agrees with the state: past a miss it holds
    the parsed URL of its options, and a client it has returned is a
    built client that dials the host of that URL. *)
Definition goroutine_ok (lib : Library) (st : State) (g : Goroutine) : Prop :=
  match g_pc g with
  | AtEntry => True
  | PastMiss u => url_Parse lib (RedisURL (g_opts g)) = Ok u
  | Returned (Ok rc) =>
      ∃ u o, url_Parse lib (RedisURL (g_opts g)) = Ok u
        ∧ clients st !! rc = Some o ∧ dials (Host u) o
  | Returned (Err _) => True
  end.

(** The byte [c] does not occur in [s]. *)
Fixpoint no_byte (c : ascii) (s : string) : bool :=
  match s with
  | EmptyString => true
  | String a s' => negb (Ascii.eqb a c) && no_byte c s'
  end.

(** A file system on which no certificate file loads. *)
Definition no_files_lib : Library :=
  {| url_Parse := example_Parse;
     keyman_LoadCertificateFromFile := λ _, Err "permission denied";
     tls_LoadX509KeyPair := λ _ _, Err "permission denied" |}.

(** ** Proofs *)

Section Proofs.
Context (lib : Library).

(** *** Logging and the sub-steps leave registry and clients alone *)

Lemma logf_rcs lv fmt a st : rcs (logf lv fmt a st) = rcs st.
Proof. reflexivity. Qed.

Lemma logf_clients lv fmt a st : clients (logf lv fmt a st) = clients st.
Proof. reflexivity. Qed.

Lemma database_frame u st :
  rcs (database u st).2 = rcs st ∧ clients (database u st).2 = clients st.
Proof.
  unfold database.
  destruct (0 <? Z.of_nat (String.length (Path u))); [|done].
  destruct (path_Split (Path u)) as [dir dbstring].
  by destruct (strconv_Atoi dbstring).
Qed.

Lemma new_Dialer_frame opts st :
  rcs (new_Dialer opts st).2 = rcs st
  ∧ clients (new_Dialer opts st).2 = clients st.
Proof. unfold new_Dialer; simpl. by destruct (DialTimeout opts =? 0). Qed.

Lemma root_CAs_frame opts st :
  rcs (root_CAs lib opts st).2 = rcs st
  ∧ clients (root_CAs lib opts st).2 = clients st.
Proof.
  unfold root_CAs. destruct (String.eqb (RedisCAFile opts) ""); [done|].
  by destruct (keyman_LoadCertificateFromFile lib (RedisCAFile opts)).
Qed.

Lemma client_Certificates_frame opts st :
  rcs (client_Certificates lib opts st).2 = rcs st
  ∧ clients (client_Certificates lib opts st).2 = clients st.
Proof.
  unfold client_Certificates.
  destruct (String.eqb (ClientPKFile opts) "" || String.eqb (ClientCertFile opts) "");
    [done|].
  by destruct (tls_LoadX509KeyPair lib (ClientCertFile opts) (ClientPKFile opts)).
Qed.

Lemma new_tlsConfig_frame opts st :
  rcs (new_tlsConfig lib opts st).2 = rcs st
  ∧ clients (new_tlsConfig lib opts st).2 = clients st.
Proof.
  unfold new_tlsConfig.
  set (st0 := Debug _ st).
  pose proof (root_CAs_frame opts st0) as [Hr Hc].
  destruct (root_CAs lib opts st0) as [[roots|e] st1]; simpl in *; [|done].
  pose proof (client_Certificates_frame opts st1) as [Hr' Hc'].
  destruct (client_Certificates lib opts st1) as [[certs|e] st2]; simpl in *;
    split; congruence.
Qed.

Lemma new_dialFunc_frame u dialer opts st :
  rcs (new_dialFunc lib u dialer opts st).2 = rcs st
  ∧ clients (new_dialFunc lib u dialer opts st).2 = clients st.
Proof.
  unfold new_dialFunc.
  destruct (strings_EqualFold (Scheme u) "rediss"); [|done].
  pose proof (new_tlsConfig_frame opts st) as H.
  by destruct (new_tlsConfig lib opts st) as [[cfg|e] st1].
Qed.

(** *** The dial function that is built *)

Lemma new_dialFunc_addr u dialer opts st f st1 :
  new_dialFunc lib u dialer opts st = (Ok f, st1) →
  dial_addr f = Host u ∧ dial_dialer f = dialer
  ∧ handshakes f = strings_EqualFold (Scheme u) "rediss".
Proof.
  unfold new_dialFunc.
  destruct (strings_EqualFold (Scheme u) "rediss").
  - destruct (new_tlsConfig lib opts st) as [[cfg|e] st2]; [|done].
    by intros [= <- <-].
  - by intros [= <- <-].
Qed.

Lemma new_dialFunc_error u dialer opts st e st1 :
  new_dialFunc lib u dialer opts st = (Err e, st1) →
  isConfigError e = true ∧ strings_EqualFold (Scheme u) "rediss" = true.
Proof.
  unfold new_dialFunc, new_tlsConfig, root_CAs, client_Certificates.
  intros H. repeat case_match; simplify_eq; done.
Qed.

(** *** The three outcomes of lines 61-72 *)

Lemma lookup_Missing opts st u :
  lookup lib opts st = Missing u ↔
  url_Parse lib (RedisURL opts) = Ok u ∧ Host u ≠ "" ∧ rcs st !! Host u = None.
Proof.
  unfold lookup. destruct (url_Parse lib (RedisURL opts)) as [u0|e].
  - destruct (String.eqb_spec (Host u0) "") as [He|He].
    + split; [done|]. intros ([= ->] & ? & _). done.
    + destruct (rcs st !! Host u0) eqn:Hr.
      * split; [done|]. intros ([= ->] & _ & ?). congruence.
      * split; [by intros [= ->]|]. by intros ([= ->] & _).
  - split; [done|]. by intros (? & _).
Qed.

Lemma lookup_Found opts st rc :
  lookup lib opts st = Found rc ↔
  ∃ u, url_Parse lib (RedisURL opts) = Ok u ∧ Host u ≠ ""
       ∧ rcs st !! Host u = Some rc.
Proof.
  unfold lookup. destruct (url_Parse lib (RedisURL opts)) as [u0|e].
  - destruct (String.eqb_spec (Host u0) "") as [He|He].
    + split; [done|]. intros (u & [= ->] & ? & _). done.
    + destruct (rcs st !! Host u0) eqn:Hr.
      * split; [intros [= ->]; eauto|]. intros (u & [= ->] & _ & ?). congruence.
      * split; [done|]. intros (u & [= ->] & _ & ?). congruence.
  - split; [done|]. by intros (u & ? & _).
Qed.

Lemma lookup_Rejected opts st e :
  lookup lib opts st = Rejected e → isParseError e = true.
Proof. unfold lookup. intros H. repeat case_match; by simplify_eq. Qed.

(** *** What a miss goes on to do *)

Lemma create_outcome u opts st r o' st' :
  create lib u opts st = (r, o', st') →
  (∃ e, r = Err e ∧ isConfigError e = true
        ∧ strings_EqualFold (Scheme u) "rediss" = true
        ∧ o' = default_PoolSize opts
        ∧ rcs st' = rcs st ∧ clients st' = clients st)
  ∨ (∃ f, r = Ok (List.length (clients st))
        ∧ Dialer_ (redis_Options o') = Some f
        ∧ dial_addr f = Host u
        ∧ handshakes f = strings_EqualFold (Scheme u) "rediss"
        ∧ clients st' = (clients st ++ [redis_Options o'])%list
        ∧ rcs st' = <[Host u := List.length (clients st)]> (rcs st)).
Proof.
  intros H. unfold create in H.
  pose proof (database_frame u st) as [Hr0 Hc0].
  destruct (database u st) as [db st0]; simpl in *.
  pose proof (new_Dialer_frame (default_PoolSize opts) st0) as [Hr1 Hc1].
  destruct (new_Dialer (default_PoolSize opts) st0) as [dialer st1]; simpl in *.
  pose proof (new_dialFunc_frame u dialer (default_PoolSize opts) st1) as [Hr2 Hc2].
  destruct (new_dialFunc lib u dialer (default_PoolSize opts) st1)
    as [[f|e] st2] eqn:Hf; simpl in *.
  - right. apply new_dialFunc_addr in Hf as (Ha & _ & Hh).
    injection H as <- <- <-. exists f. simpl.
    assert (Hd : Dialer_ (redis_Options (set_userinfo_Password u
                   (set_DB db (set_Dialer f (default_PoolSize opts))))) = Some f).
    { unfold set_userinfo_Password. by destruct (User u). }
    repeat split; try done; simpl;
      by rewrite ?Hr2, ?Hc2, ?Hr1, ?Hc1, ?Hr0, ?Hc0.
  - left. apply new_dialFunc_error in Hf as [He Hs].
    injection H as <- <- <-. exists e.
    repeat split; try done; by rewrite ?Hr2, ?Hc2, ?Hr1, ?Hc1, ?Hr0, ?Hc0.
Qed.

(** *** One call *)

Lemma GetClient_registered opts st u rc :
  url_Parse lib (RedisURL opts) = Ok u → Host u ≠ "" →
  rcs st !! Host u = Some rc →
  GetClient lib opts st = (Ok rc, opts, st).
Proof.
  intros Hu Hh Hr. unfold GetClient.
  assert (lookup lib opts st = Found rc) as -> by (apply lookup_Found; eauto).
  done.
Qed.

Lemma GetClient_Ok opts st u rc o' st' :
  url_Parse lib (RedisURL opts) = Ok u →
  GetClient lib opts st = (Ok rc, o', st') →
  Host u ≠ "" ∧ rcs st' !! Host u = Some rc
  ∧ (rcs st !! Host u = None → constructed st' = S (constructed st)).
Proof.
  intros Hu. unfold GetClient.
  destruct (lookup lib opts st) as [rc0|u0|e] eqn:Hl.
  - apply lookup_Found in Hl as (u1 & Hu1 & Hh & Hr).
    intros [= -> -> ->]. rewrite Hu in Hu1. injection Hu1 as <-.
    split; [done|]. split; [done|]. congruence.
  - apply lookup_Missing in Hl as (Hu1 & Hh & Hr).
    rewrite Hu in Hu1. injection Hu1 as <-.
    intros Hc. apply create_outcome in Hc as [(e & ? & _)|(f & Hrc & _ & _ & _ & Hcl & Hrcs)];
      [done|].
    injection Hrc as ->. split; [done|]. split.
    + rewrite Hrcs. apply lookup_insert_eq.
    + intros _. unfold constructed. rewrite Hcl, length_app. simpl. lia.
  - done.
Qed.

Lemma GetClient_keeps opts st host rc :
  rcs st !! host = Some rc →
  rcs (GetClient lib opts st).2 !! host = Some rc.
Proof.
  intros Hr. unfold GetClient.
  destruct (lookup lib opts st) as [rc0|u0|e] eqn:Hl; [done| |done].
  apply lookup_Missing in Hl as (_ & _ & Hn).
  destruct (create lib u0 opts st) as [[r o'] st'] eqn:Hc. simpl.
  apply create_outcome in Hc as [(e & _ & _ & _ & _ & -> & _)|(f & _ & _ & _ & _ & _ & ->)];
    [done|].
  rewrite lookup_insert_ne; [done|]. congruence.
Qed.

Lemma GetClient_registry_ok opts st :
  registry_ok st → registry_ok (GetClient lib opts st).2.
Proof.
  intros [H1 H2]. unfold GetClient.
  destruct (lookup lib opts st) as [rc0|u0|e] eqn:Hl; [done| |done].
  apply lookup_Missing in Hl as (_ & _ & Hn).
  destruct (create lib u0 opts st) as [[r o'] st'] eqn:Hc.
  apply create_outcome in Hc
    as [(e & _ & _ & _ & _ & Hr & Hcl)|(f & _ & Hd & Ha & _ & Hcl & Hr)]; simpl.
  { split; intros ?; rewrite ?Hr, ?Hcl; auto. }
  split.
  - intros host rc. rewrite Hr, Hcl.
    destruct (decide (Host u0 = host)) as [<-|Hne].
    + rewrite lookup_insert_eq. intros [= <-].
      exists (redis_Options o'). split; [|by exists f].
      by rewrite lookup_app_r, Nat.sub_diag.
    + rewrite lookup_insert_ne by done. intros Hrc.
      destruct (H1 _ _ Hrc) as (o & Ho & Hdo). exists o. split; [|done].
      by apply lookup_app_l_Some.
  - intros rc o. rewrite Hr, Hcl. intros Ho.
    apply lookup_app_Some in Ho as [Ho|[Hge Ho]].
    + destruct (H2 _ _ Ho) as (g & Hg & Hrg). exists g. split; [done|].
      rewrite lookup_insert_ne; [done|]. congruence.
    + destruct (rc - List.length (clients st))%nat as [|n] eqn:Hk; [|done].
      injection Ho as <-. exists f. split; [done|].
      rewrite Ha, lookup_insert_eq. f_equal. lia.
Qed.

(** *** Calls one after another *)

Lemma run_keeps calls st host rc :
  rcs st !! host = Some rc →
  rcs (run lib calls st).2 !! host = Some rc.
Proof.
  revert st. induction calls as [|opts calls IH]; intros st Hr; [done|].
  simpl. pose proof (GetClient_keeps opts st host rc Hr) as Hk.
  destruct (GetClient lib opts st) as [[r o'] st1]. simpl in Hk.
  specialize (IH st1 Hk). by destruct (run lib calls st1).
Qed.

Lemma init_registry_ok : registry_ok init.
Proof. split; [intros host rc|intros rc o]; simpl; by rewrite ?lookup_empty. Qed.

Lemma run_registry_ok calls st :
  registry_ok st → registry_ok (run lib calls st).2.
Proof.
  revert st. induction calls as [|opts calls IH]; intros st Hok; [done|].
  simpl. pose proof (GetClient_registry_ok opts st Hok) as Hk.
  destruct (GetClient lib opts st) as [[r o'] st1]. simpl in Hk.
  specialize (IH st1 Hk). by destruct (run lib calls st1).
Qed.

Lemma registry_ok_one_client st host i j oi oj :
  registry_ok st →
  clients st !! i = Some oi → dials host oi →
  clients st !! j = Some oj → dials host oj →
  i = j.
Proof.
  intros [_ H2] Hi (fi & Hfi & Hai) Hj (fj & Hfj & Haj).
  destruct (H2 _ _ Hi) as (f & Hf & Hr). destruct (H2 _ _ Hj) as (g & Hg & Hr').
  assert (f = fi) as -> by congruence. assert (g = fj) as -> by congruence.
  rewrite Hai in Hr. rewrite Haj in Hr'. congruence.
Qed.

Lemma run_results calls st k opts u rc :
  calls !! k = Some opts →
  url_Parse lib (RedisURL opts) = Ok u →
  (run lib calls st).1 !! k = Some (Ok rc) →
  rcs (run lib calls st).2 !! Host u = Some rc.
Proof.
  revert st k. induction calls as [|o calls IH]; intros st k Hk Hu Hrs; [done|].
  simpl in *. destruct (GetClient lib o st) as [[r o'] st1] eqn:Hg.
  pose proof (run_keeps calls st1 (Host u) rc) as Hkeep.
  specialize (IH st1).
  destruct (run lib calls st1) as [rs st2]. simpl in *.
  destruct k as [|k]; simpl in *.
  - injection Hk as ->. injection Hrs as ->.
    apply Hkeep. by eapply GetClient_Ok.
  - by eapply IH.
Qed.

(** A goroutine that is not interrupted does what [GetClient] does. *)
Lemma step_step opts st :
  let '(g1, st1) := step lib (go opts) st in
  let '(g2, st2) := step lib g1 st1 in
  (g_pc g2, g_opts g2, st2)
  = let '(r, o', st') := GetClient lib opts st in (Returned r, o', st').
Proof.
  unfold step, go, GetClient; simpl.
  destruct (lookup lib opts st) as [rc|u|e]; simpl; try done.
  by destruct (create lib u opts st) as [[r o'] st'].
Qed.

(** *** The registry across calls *)

(** C1: two calls one after the other whose URLs parse to the same
    host:port, the first of which returns a client.  The second call
    returns that same client, writes nothing to its options and leaves
    the process state as it was, so it builds nothing.  After both
    calls that client is the one and only client ever built for the
    host:port; when the host:port was not registered before the first
    call, the two calls together built exactly one client.  No later
    sequence of calls removes or replaces the registry entry.  The
    scheme, path and userinfo of the second URL play no part. *)
Theorem C1_same_host_same_handle
    (history later : list Options) (opts1 opts2 : Options) (u1 u2 : URL)
    (rc : Client) :
  let st := (run lib history init).2 in
  let st1 := (GetClient lib opts1 st).2 in
  url_Parse lib (RedisURL opts1) = Ok u1 →
  url_Parse lib (RedisURL opts2) = Ok u2 →
  Host u1 = Host u2 →
  (GetClient lib opts1 st).1.1 = Ok rc →
  GetClient lib opts2 st1 = (Ok rc, opts2, st1)
  ∧ (∃ o, clients st1 !! rc = Some o ∧ dials (Host u1) o)
  ∧ (∀ i o, clients st1 !! i = Some o → dials (Host u1) o → i = rc)
  ∧ (rcs st !! Host u1 = None → constructed st1 = S (constructed st))
  ∧ rcs (run lib later st1).2 !! Host u1 = Some rc.
Proof.
  intros st st1 Hu1 Hu2 Hh Hfirst.
  assert (Hok : registry_ok st) by apply run_registry_ok, init_registry_ok.
  assert (Hok1 : registry_ok st1) by by apply GetClient_registry_ok.
  subst st1. destruct (GetClient lib opts1 st) as [[r o1] st1] eqn:Hg.
  simpl in *. subst r.
  destruct (GetClient_Ok _ _ _ _ _ _ Hu1 Hg) as (Hne & Hreg & Hcount).
  destruct (proj1 Hok1 _ _ Hreg) as (o & Ho & Hd).
  split; [|split; [|split; [|split]]].
  - apply GetClient_registered with u2; congruence.
  - eauto.
  - intros i oi Hi Hdi. by eapply registry_ok_one_client.
  - done.
  - by apply run_keeps.
Qed.

(** C2, as amended: when calls do not overlap, at most one client is
    ever built per host:port, and every call that returns a client
    returns the one built for, and registered under, the host:port of
    its URL. *)
Theorem C2_one_client_per_host_sequentially (calls : list Options) :
  let rs := (run lib calls init).1 in
  let st := (run lib calls init).2 in
  (∀ host i j oi oj,
     clients st !! i = Some oi → dials host oi →
     clients st !! j = Some oj → dials host oj → i = j)
  ∧ (∀ k opts u rc,
     calls !! k = Some opts →
     url_Parse lib (RedisURL opts) = Ok u →
     rs !! k = Some (Ok rc) →
     rcs st !! Host u = Some rc
     ∧ ∃ o, clients st !! rc = Some o ∧ dials (Host u) o).
Proof.
  intros rs st.
  assert (Hok : registry_ok st) by apply run_registry_ok, init_registry_ok.
  split.
  - intros host i j oi oj Hi Hdi Hj Hdj. by eapply registry_ok_one_client.
  - intros k opts u rc Hk Hu Hr.
    assert (rcs st !! Host u = Some rc) as Hreg by by eapply run_results.
    split; [done|]. by apply (proj1 Hok).
Qed.

(** *** Lines 74-147, step by step *)

Lemma create_unfold u opts st :
  create lib u opts st =
  let opts0 := default_PoolSize opts in
  let db := (database u st).1 in
  let d := new_Dialer opts0 (database u st).2 in
  match new_dialFunc lib u d.1 opts0 d.2 with
  | (Err e, st2) => (Err e, opts0, st2)
  | (Ok f, st2) =>
      let o' := set_userinfo_Password u (set_DB db (set_Dialer f opts0)) in
      (Ok (List.length (clients st2)), o',
       register (Host u) (List.length (clients st2))
         {| rcs := rcs st2; clients := clients st2 ++ [redis_Options o'];
            log := log st2 |})
  end.
Proof.
  unfold create. destruct (database u st) as [db st0]. simpl.
  destruct (new_Dialer (default_PoolSize opts) st0) as [dialer st1]. simpl.
  by destruct (new_dialFunc lib u dialer (default_PoolSize opts) st1) as [[f|e] st2].
Qed.

Lemma GetClient_Missing opts st u :
  lookup lib opts st = Missing u →
  GetClient lib opts st = create lib u opts st.
Proof. unfold GetClient. by intros ->. Qed.

(** A call that builds a client went through a miss. *)
Lemma GetClient_builds opts st o :
  clients (GetClient lib opts st).2 = (clients st ++ [o])%list →
  ∃ u f, lookup lib opts st = Missing u
    ∧ (GetClient lib opts st).1.1 = Ok (List.length (clients st))
    ∧ o = redis_Options (GetClient lib opts st).1.2
    ∧ Dialer_ o = Some f
    ∧ dial_addr f = Host u
    ∧ dial_dialer f = (new_Dialer (default_PoolSize opts) (database u st).2).1
    ∧ handshakes f = strings_EqualFold (Scheme u) "rediss".
Proof.
  assert (Hno : ∀ l : list RedisOptions, l ≠ (l ++ [o])%list).
  { intros l Hl. apply (f_equal List.length) in Hl.
    rewrite length_app in Hl. simpl in Hl. lia. }
  unfold GetClient.
  destruct (lookup lib opts st) as [rc|u|e] eqn:Hl; simpl;
    [intros H; by apply Hno in H| |intros H; by apply Hno in H].
  rewrite create_unfold. simpl.
  pose proof (database_frame u st) as [_ Hc0].
  pose proof (new_Dialer_frame (default_PoolSize opts) (database u st).2) as [_ Hc1].
  set (d := new_Dialer (default_PoolSize opts) (database u st).2) in *.
  pose proof (new_dialFunc_frame u d.1 (default_PoolSize opts) d.2) as [_ Hc].
  destruct (new_dialFunc lib u d.1 (default_PoolSize opts) d.2)
    as [[f|e] st2] eqn:Hf; simpl in *;
    intros H; rewrite Hc, Hc1, Hc0 in H; [|by apply Hno in H].
  apply app_inv_head in H. injection H as H.
  apply new_dialFunc_addr in Hf as (Ha & Hd & Hh).
  exists u, f. rewrite Hc, Hc1, Hc0.
  split; [done|]. split; [done|]. split; [done|]. split; [|done].
  rewrite <- H. unfold set_userinfo_Password. by destruct (User u).
Qed.

(** *** The log only grows *)

Lemma logf_keeps lv fmt a st (x : LogEntry) :
  x ∈ log st → x ∈ log (logf lv fmt a st).
Proof. intros H. simpl. apply elem_of_app. by left. Qed.

Lemma new_Dialer_log opts st (x : LogEntry) :
  x ∈ log st → x ∈ log (new_Dialer opts st).2.
Proof.
  unfold new_Dialer; simpl. destruct (DialTimeout opts =? 0); [|done].
  apply logf_keeps.
Qed.

Lemma new_dialFunc_log u dialer opts st (x : LogEntry) :
  x ∈ log st → x ∈ log (new_dialFunc lib u dialer opts st).2.
Proof.
  unfold new_dialFunc, new_tlsConfig, root_CAs, client_Certificates,
    Debug, Debugf, Errorf.
  intros H. repeat case_match; simplify_eq; simpl;
    repeat (apply elem_of_app; left); done.
Qed.

(** *** strconv.Atoi and strings.EqualFold *)

Lemma strconv_Atoi_range s n :
  strconv_Atoi s = Ok n → minInt ≤ n ≤ maxInt.
Proof.
  unfold strconv_Atoi. intros H.
  repeat case_match; simplify_eq; lia.
Qed.

Lemma all_bytes_complete (c : ascii) : In c all_bytes.
Proof.
  unfold all_bytes. rewrite <- (ascii_nat_embedding c).
  apply in_map, in_seq. pose proof (nat_ascii_bounded c). lia.
Qed.

Lemma fold_eq_lower (sr tr : ascii) :
  fold_eq sr tr = Ascii.eqb (lower sr) (lower tr).
Proof.
  assert (H : forallb (λ a, forallb (λ b,
                Bool.eqb (fold_eq a b) (Ascii.eqb (lower a) (lower b)))
                all_bytes) all_bytes = true) by (vm_compute; reflexivity).
  rewrite forallb_forall in H. specialize (H sr (all_bytes_complete sr)).
  rewrite forallb_forall in H. specialize (H tr (all_bytes_complete tr)).
  by apply Bool.eqb_prop in H.
Qed.

Lemma strings_EqualFold_lower (s t : string) :
  strings_EqualFold s t = true ↔ to_lower s = to_lower t.
Proof.
  revert t. induction s as [|sr s IH]; intros [|tr t]; simpl; try done.
  rewrite fold_eq_lower.
  destruct (Ascii.eqb_spec (lower sr) (lower tr)) as [He|He].
  - rewrite IH. split; [intros ->; by rewrite He|]. by intros [= _ ->].
  - split; [done|]. by intros [= ? _].
Qed.

(** *** The caller's options *)

(** C3, as amended: a call writes through the [*Options] pointer only
    when it misses the registry.  It then stores 3 in a zero PoolSize,
    and nothing else if it fails on a certificate file; when it
    succeeds it also overwrites Dialer and DB, and Password when the
    URL has userinfo.  A call that fails on its URL or finds the host
    registered writes nothing.  The package's own six fields and the
    pass-through fields are never written. *)
Theorem C3_what_GetClient_writes (opts : Options) (st : State) :
  let r := (GetClient lib opts st).1.1 in
  let o' := (GetClient lib opts st).1.2 in
  (RedisURL o' = RedisURL opts ∧ RedisCAFile o' = RedisCAFile opts
   ∧ ClientPKFile o' = ClientPKFile opts
   ∧ ClientCertFile o' = ClientCertFile opts
   ∧ DialTimeout o' = DialTimeout opts ∧ TCPKeepAlive o' = TCPKeepAlive opts
   ∧ PassThrough (redis_Options o') = PassThrough (redis_Options opts))
  ∧ match lookup lib opts st, r with
    | Missing u, Ok _ =>
        ∃ f db,
          o' = set_userinfo_Password u
                 (set_DB db (set_Dialer f (default_PoolSize opts)))
    | Missing u, Err _ => o' = default_PoolSize opts
    | _, _ => o' = opts
    end.
Proof.
  unfold GetClient. destruct (lookup lib opts st) as [rc|u|e]; simpl; try done.
  rewrite create_unfold. simpl.
  destruct (new_dialFunc lib u _ _ _) as [[f|e] st2]; simpl.
  - split; [|by eauto].
    unfold set_userinfo_Password, default_PoolSize.
    destruct (User u); destruct (PoolSize (redis_Options opts) =? 0); done.
  - split; [|done].
    unfold default_PoolSize.
    by destruct (PoolSize (redis_Options opts) =? 0).
Qed.

(** *** The endpoint read from the URL *)

(** C4, as amended: when a call builds a client, the database index it
    gives the client is 0 for an empty path; otherwise it is the
    integer strconv.Atoi reads from the text after the last [/] of the
    path, which is any decimal of the [int] range with an optional sign
    and so may be negative; when that text does not parse, an error
    line is logged, the index is 0 and the call goes on. *)
Theorem C4_database_index (opts : Options) (st : State) (u : URL)
    (rc : Client) :
  lookup lib opts st = Missing u →
  (GetClient lib opts st).1.1 = Ok rc →
  let st' := (GetClient lib opts st).2 in
  let dbstring := (path_Split (Path u)).2 in
  ∃ o, clients st' !! rc = Some o
    ∧ minInt ≤ DB o ≤ maxInt
    ∧ if decide (Path u = "") then DB o = 0
      else
        match strconv_Atoi dbstring with
        | Ok n => DB o = n
        | Err err2 =>
            DB o = 0
            ∧ {| level := ERROR;
                 format := "Unable to get database number from path %v: %v";
                 args := [AStr (Path u); AErr err2] |} ∈ log st'
        end.
Proof.
  intros Hl. rewrite (GetClient_Missing _ _ _ Hl), create_unfold. simpl.
  pose proof (database_frame u st) as [_ Hc0].
  pose proof (new_Dialer_frame (default_PoolSize opts) (database u st).2) as [_ Hc1].
  pose proof (new_Dialer_log (default_PoolSize opts) (database u st).2) as Hl1.
  set (d := new_Dialer (default_PoolSize opts) (database u st).2) in *.
  pose proof (new_dialFunc_frame u d.1 (default_PoolSize opts) d.2) as [_ Hc].
  pose proof (new_dialFunc_log u d.1 (default_PoolSize opts) d.2) as Hl2.
  destruct (new_dialFunc lib u d.1 (default_PoolSize opts) d.2)
    as [[f|e] st2]; simpl in *; [|done].
  intros [= <-].
  eexists. split; [by rewrite lookup_app_r, Nat.sub_diag|].
  assert (HDB : ∀ o, DB (redis_Options (set_userinfo_Password u
                  (set_DB (database u st).1 o))) = (database u st).1).
  { intros o. unfold set_userinfo_Password. by destruct (User u). }
  rewrite HDB. clear HDB.
  assert (Hlog : ∀ x : LogEntry, x ∈ log (database u st).2 → x ∈ log st2)
    by (intros x Hx; by apply Hl2, Hl1).
  clearbody d. clear Hl1 Hl2 Hc Hc1 Hc0.
  unfold database in *. destruct (decide (Path u = "")) as [Hp|Hp].
  { rewrite Hp in *. simpl. split; [|done]. unfold minInt, maxInt. lia. }
  destruct (Path u) as [|c p]; [done|].
  change (0 <? Z.of_nat (String.length (String c p))) with true in *.
  cbv iota in *.
  unfold path_Split in *. cbn [fst snd] in *.
  destruct (strconv_Atoi (slice_from _ _)) as [n|err2] eqn:Ha; cbn [fst snd] in *.
  - split; [|done]. by eapply strconv_Atoi_range.
  - split; [unfold minInt, maxInt; lia|]. split; [done|].
    apply Hlog. unfold Debugf, Errorf, logf. simpl.
    apply elem_of_app. left. apply elem_of_app. right.
    by apply list_elem_of_singleton.
Qed.

(** C5, as amended: when a call builds a client for a URL with
    userinfo, the password of the userinfo is the Password handed to
    the client constructor; the user name is not handed over, the call
    does exactly what it does for the same URL with the user name
    erased.  Without userinfo the caller's own Options.Password is
    handed over unchanged. *)
Theorem C5_password_without_username (opts : Options) (st : State) (u : URL)
    (rc : Client) :
  lookup lib opts st = Missing u →
  (GetClient lib opts st).1.1 = Ok rc →
  let st' := (GetClient lib opts st).2 in
  (∃ o, clients st' = (clients st ++ [o])%list
     ∧ clients st' !! rc = Some o
     ∧ Password o =
         match User u with
         | Some ui => password ui
         | None => Password (redis_Options opts)
         end)
  ∧ GetClient lib opts st = create lib (without_username u) opts st.
Proof.
  intros Hl Hrc st'. subst st'. rewrite (GetClient_Missing _ _ _ Hl) in *.
  split.
  - revert Hrc. rewrite create_unfold. simpl.
    pose proof (database_frame u st) as [_ Hc0].
    pose proof (new_Dialer_frame (default_PoolSize opts) (database u st).2) as [_ Hc1].
    set (d := new_Dialer (default_PoolSize opts) (database u st).2) in *.
    pose proof (new_dialFunc_frame u d.1 (default_PoolSize opts) d.2) as [_ Hc].
    destruct (new_dialFunc lib u d.1 (default_PoolSize opts) d.2)
      as [[f|e] st2]; simpl in *; [|done].
    intros [= <-]. eexists. split; [by rewrite Hc, Hc1, Hc0|].
    split; [by rewrite lookup_app_r, Nat.sub_diag|].
    unfold set_userinfo_Password, default_PoolSize.
    destruct (User u); destruct (PoolSize (redis_Options opts) =? 0); done.
  - by destruct u as [scheme [ui|] host path].
Qed.

(** *** The transport that is configured *)

Lemma new_tlsConfig_roots opts st :
  match (new_tlsConfig lib opts st).1 with
  | Ok cfg =>
      ClientSessionCache cfg = 1000
      ∧ (if decide (RedisCAFile opts = "") then RootCAs cfg = None
         else ∃ cert,
           keyman_LoadCertificateFromFile lib (RedisCAFile opts) = Ok cert
           ∧ RootCAs cfg = Some (PoolContainingCert cert))
  | Err e =>
      (∀ err2, keyman_LoadCertificateFromFile lib (RedisCAFile opts) = Err err2 →
         RedisCAFile opts ≠ "" → e = UnableToLoadCA err2)
  end.
Proof.
  unfold new_tlsConfig, root_CAs, client_Certificates.
  destruct (decide (RedisCAFile opts = "")) as [Hca|Hca];
    destruct (String.eqb_spec (RedisCAFile opts) "") as [Hca'|Hca']; try done.
  - repeat case_match; simpl in *; simplify_eq; done.
  - repeat case_match; simpl in *; simplify_eq; simpl; eauto; congruence.
Qed.

Lemma new_tlsConfig_certs opts st :
  let both := ClientPKFile opts ≠ "" ∧ ClientCertFile opts ≠ "" in
  match (new_tlsConfig lib opts st).1 with
  | Ok cfg =>
      (Certificates cfg ≠ [] ↔ both)
      ∧ (both → ∃ cert,
           tls_LoadX509KeyPair lib (ClientCertFile opts) (ClientPKFile opts)
             = Ok cert
           ∧ Certificates cfg = [cert])
  | Err (UnableToLoadKeyPair err2) =>
      both
      ∧ tls_LoadX509KeyPair lib (ClientCertFile opts) (ClientPKFile opts)
          = Err err2
  | Err _ => True
  end.
Proof.
  unfold new_tlsConfig, root_CAs, client_Certificates.
  destruct (String.eqb_spec (ClientPKFile opts) "") as [Hpk|Hpk];
    destruct (String.eqb_spec (ClientCertFile opts) "") as [Hcert|Hcert];
    simpl; repeat case_match; simpl in *; simplify_eq; simpl; try done;
    try (split; [split; [intros ?; done|intros [? ?]; done]|intros [? ?]; done]).
  all: split; [split; [done|done]|]; eauto.
Qed.

Lemma new_tlsConfig_error opts st e :
  (new_tlsConfig lib opts st).1 = Err e →
  (∃ err2, e = UnableToLoadCA err2 ∧ RedisCAFile opts ≠ ""
     ∧ keyman_LoadCertificateFromFile lib (RedisCAFile opts) = Err err2)
  ∨ (∃ err2, e = UnableToLoadKeyPair err2
     ∧ (ClientPKFile opts ≠ "" ∧ ClientCertFile opts ≠ "")
     ∧ tls_LoadX509KeyPair lib (ClientCertFile opts) (ClientPKFile opts)
         = Err err2).
Proof.
  unfold new_tlsConfig, root_CAs, client_Certificates.
  destruct (String.eqb_spec (RedisCAFile opts) "") as [Hca|Hca];
    destruct (String.eqb_spec (ClientPKFile opts) "") as [Hpk|Hpk];
    destruct (String.eqb_spec (ClientCertFile opts) "") as [Hcert|Hcert];
    simpl; repeat case_match; simpl in *; intros; simplify_eq;
    first [left; by eauto|right; by eauto].
Qed.

(** C6, as amended: an encrypted-scheme call for a host:port that is
    not registered yet attaches a client identity to the TLS
    configuration exactly when both the key path and the certificate
    path are given, and the identity is the loaded pair.  With only one
    of the two given the load is not attempted: no key-pair error
    arises, and the one error the call can still return is that of a
    CA file that does not load.  With both given and a pair that does
    not load, the call
    returns a configuration error, builds no client and leaves the
    registry as it was. *)
Theorem C6_client_identity (opts : Options) (st : State) (u : URL) :
  lookup lib opts st = Missing u →
  strings_EqualFold (Scheme u) "rediss" = true →
  let r := (GetClient lib opts st).1.1 in
  let st' := (GetClient lib opts st).2 in
  let both := ClientPKFile opts ≠ "" ∧ ClientCertFile opts ≠ "" in
  let pair :=
    tls_LoadX509KeyPair lib (ClientCertFile opts) (ClientPKFile opts) in
  (∀ rc, r = Ok rc →
     ∃ o cfg, clients st' !! rc = Some o ∧ tls_of o = Some cfg
       ∧ (Certificates cfg ≠ [] ↔ both)
       ∧ (both → ∃ cert, pair = Ok cert ∧ Certificates cfg = [cert]))
  ∧ (∀ err2, r = Err (UnableToLoadKeyPair err2) → both ∧ pair = Err err2)
  ∧ (¬ both → ∀ e, r = Err e →
       ∃ err2, e = UnableToLoadCA err2 ∧ RedisCAFile opts ≠ ""
         ∧ keyman_LoadCertificateFromFile lib (RedisCAFile opts) = Err err2)
  ∧ (both → ∀ err2, pair = Err err2 →
       ∃ e, r = Err e ∧ isConfigError e = true
         ∧ clients st' = clients st ∧ rcs st' = rcs st).
Proof.
  intros Hl Hs r st' both pair. subst r st'.
  rewrite (GetClient_Missing _ _ _ Hl), create_unfold. simpl.
  pose proof (database_frame u st) as [Hr0 Hc0].
  pose proof (new_Dialer_frame (default_PoolSize opts) (database u st).2)
    as [Hr1 Hc1].
  set (d := new_Dialer (default_PoolSize opts) (database u st).2) in *.
  pose proof (new_dialFunc_frame u d.1 (default_PoolSize opts) d.2) as [Hr Hc].
  pose proof (new_tlsConfig_certs (default_PoolSize opts) d.2) as Hcerts.
  pose proof (new_tlsConfig_error (default_PoolSize opts) d.2) as Herr.
  assert (Hfiles : ClientPKFile (default_PoolSize opts) = ClientPKFile opts
                   ∧ ClientCertFile (default_PoolSize opts) = ClientCertFile opts
                   ∧ RedisCAFile (default_PoolSize opts) = RedisCAFile opts).
  { unfold default_PoolSize. by destruct (PoolSize (redis_Options opts) =? 0). }
  destruct Hfiles as (Hpk & Hcert & Hca).
  rewrite Hpk, Hcert in Hcerts. rewrite Hpk, Hcert, Hca in Herr.
  fold both pair in Hcerts, Herr. simpl in Hcerts.
  unfold new_dialFunc in *. rewrite Hs in *.
  destruct (new_tlsConfig lib (default_PoolSize opts) d.2) as [[cfg|e] st2]
    eqn:Ht; simpl in *.
  - destruct Hcerts as [Hiff Hboth]. split; [|split; [|split]].
    + intros rc [= <-]. eexists _, cfg.
      split; [by rewrite lookup_app_r, Nat.sub_diag|]. split; [|done].
      unfold tls_of, set_userinfo_Password. by destruct (User u).
    + done.
    + done.
    + intros Hb err2 Hp. destruct (Hboth Hb) as (cert & Hok & _). congruence.
  - split; [done|]. split; [|split].
    + intros err2 [= Heq]. by rewrite Heq in Hcerts.
    + intros Hnb e' [= <-].
      destruct (Herr e eq_refl) as [Hca'|(err2 & _ & Hb & _)]; done.
    + intros Hb err2 Hp. exists e. split; [done|].
      split; [|split; congruence].
      pose proof (new_dialFunc_error u d.1 (default_PoolSize opts) d.2 e st2) as He.
      unfold new_dialFunc in He. rewrite Hs, Ht in He. by apply He.
Qed.

(** C7, as amended: an encrypted-scheme call for a host:port that is
    not registered yet and that names a CA file gives the TLS
    configuration, as its root set, the pool holding the certificate
    loaded from that file and nothing else; when the file does not
    load the call returns a configuration error, builds no client and
    leaves the registry as it was.  With no CA file named the root set
    is left nil, which selects the system roots. *)
Theorem C7_root_CAs (opts : Options) (st : State) (u : URL) :
  lookup lib opts st = Missing u →
  strings_EqualFold (Scheme u) "rediss" = true →
  let r := (GetClient lib opts st).1.1 in
  let st' := (GetClient lib opts st).2 in
  let ca := keyman_LoadCertificateFromFile lib (RedisCAFile opts) in
  (∀ rc, r = Ok rc →
     ∃ o cfg, clients st' !! rc = Some o ∧ tls_of o = Some cfg
       ∧ if decide (RedisCAFile opts = "") then RootCAs cfg = None
         else ∃ cert, ca = Ok cert ∧ RootCAs cfg = Some [cert])
  ∧ (RedisCAFile opts ≠ "" → ∀ err2, ca = Err err2 →
       r = Err (UnableToLoadCA err2)
       ∧ isConfigError (UnableToLoadCA err2) = true
       ∧ clients st' = clients st ∧ rcs st' = rcs st).
Proof.
  intros Hl Hs r st' ca. subst r st'.
  rewrite (GetClient_Missing _ _ _ Hl), create_unfold. simpl.
  pose proof (database_frame u st) as [Hr0 Hc0].
  pose proof (new_Dialer_frame (default_PoolSize opts) (database u st).2)
    as [Hr1 Hc1].
  set (d := new_Dialer (default_PoolSize opts) (database u st).2) in *.
  pose proof (new_dialFunc_frame u d.1 (default_PoolSize opts) d.2) as [Hr Hc].
  pose proof (new_tlsConfig_roots (default_PoolSize opts) d.2) as Hroots.
  assert (Hfile : RedisCAFile (default_PoolSize opts) = RedisCAFile opts).
  { unfold default_PoolSize. by destruct (PoolSize (redis_Options opts) =? 0). }
  rewrite Hfile in Hroots. fold ca in Hroots.
  unfold new_dialFunc in *. rewrite Hs in *.
  destruct (new_tlsConfig lib (default_PoolSize opts) d.2) as [[cfg|e] st2];
    simpl in *.
  - destruct Hroots as [_ Hroots]. split.
    + intros rc [= <-]. eexists _, cfg.
      split; [by rewrite lookup_app_r, Nat.sub_diag|]. split; [|done].
      unfold tls_of, set_userinfo_Password. by destruct (User u).
    + intros Hca err2 Hload. rewrite decide_False in Hroots by done.
      destruct Hroots as (cert & Hok & _). congruence.
  - split; [done|]. intros Hca err2 Hload.
    rewrite (Hroots err2 Hload Hca). repeat split; congruence.
Qed.

Lemma new_Dialer_value opts st :
  Timeout (new_Dialer opts st).1
    = (if DialTimeout opts =? 0 then 30 * Second else DialTimeout opts)
  ∧ KeepAlive (new_Dialer opts st).1 = TCPKeepAlive opts.
Proof. unfold new_Dialer; simpl. by destruct (DialTimeout opts =? 0). Qed.

(** C8: whenever a call builds a client, the dial function it gives the
    client performs a TLS handshake exactly when the URL scheme,
    lower-cased, is [rediss]; for the plain scheme [redis] the dial
    function is the plain TCP dial of the URL's host:port through the
    base dialer, with no handshake. *)
Theorem C8_plain_scheme_dials_TCP (opts : Options) (st : State) (u : URL)
    (o : RedisOptions) :
  url_Parse lib (RedisURL opts) = Ok u →
  clients (GetClient lib opts st).2 = (clients st ++ [o])%list →
  ∃ f, Dialer_ o = Some f
    ∧ (handshakes f = true ↔ to_lower (Scheme u) = "rediss")
    ∧ (Scheme u = "redis" →
       f = DialTCP (dial_dialer f) (Host u) ∧ handshakes f = false).
Proof.
  intros Hu Hb.
  apply GetClient_builds in Hb as (u' & f & Hl & _ & _ & Hd & Ha & _ & Hh).
  apply lookup_Missing in Hl as (Hu' & _ & _).
  rewrite Hu in Hu'. injection Hu' as <-.
  exists f. split; [done|]. split.
  - rewrite Hh. apply (strings_EqualFold_lower (Scheme u) "rediss").
  - intros Hplain. rewrite Hplain in Hh. simpl in Hh.
    destruct f as [dialer addr|dialer addr cfg]; [|done].
    simpl in *. by subst addr.
Qed.

(** C9: whenever a call builds a client, the dialer under its dial
    function has the caller's DialTimeout as its Timeout, with 30
    seconds in place of zero, and the caller's TCPKeepAlive as its
    KeepAlive, so a zero TCPKeepAlive leaves keepalives disabled. *)
Theorem C9_base_dialer (opts : Options) (st : State) (o : RedisOptions) :
  clients (GetClient lib opts st).2 = (clients st ++ [o])%list →
  ∃ f, Dialer_ o = Some f
    ∧ Timeout (dial_dialer f)
        = (if DialTimeout opts =? 0 then 30 * Second else DialTimeout opts)
    ∧ KeepAlive (dial_dialer f) = TCPKeepAlive opts
    ∧ keepalives_disabled (dial_dialer f) = (TCPKeepAlive opts =? 0).
Proof.
  intros Hb.
  apply GetClient_builds in Hb as (u & f & _ & _ & _ & Hd & _ & Hdd & _).
  exists f. split; [done|].
  pose proof (new_Dialer_value (default_PoolSize opts) (database u st).2)
    as [Ht Hk].
  assert (Hsame : DialTimeout (default_PoolSize opts) = DialTimeout opts
                  ∧ TCPKeepAlive (default_PoolSize opts) = TCPKeepAlive opts).
  { unfold default_PoolSize. by destruct (PoolSize (redis_Options opts) =? 0). }
  destruct Hsame as [Hs1 Hs2]. rewrite Hs1 in Ht. rewrite Hs2 in Hk.
  unfold keepalives_disabled. rewrite Hdd, Ht, Hk. done.
Qed.

(** C10, as amended: a URL with a host and a scheme that is not
    [rediss] in any letter case is never rejected for its scheme.
    When the host:port is not registered yet the call builds a client
    that dials it over plain TCP and registers it; when it is
    registered the call returns the registered client as it is,
    whatever its transport. *)
Theorem C10_other_schemes_dial_TCP (opts : Options) (st : State) (u : URL) :
  url_Parse lib (RedisURL opts) = Ok u →
  Host u ≠ "" →
  strings_EqualFold (Scheme u) "rediss" = false →
  let r := (GetClient lib opts st).1.1 in
  let o' := (GetClient lib opts st).1.2 in
  let st' := (GetClient lib opts st).2 in
  match rcs st !! Host u with
  | Some rc => r = Ok rc ∧ st' = st
  | None =>
      r = Ok (List.length (clients st))
      ∧ clients st' = (clients st ++ [redis_Options o'])%list
      ∧ rcs st' = <[Host u := List.length (clients st)]> (rcs st)
      ∧ ∃ dialer, Dialer_ (redis_Options o') = Some (DialTCP dialer (Host u))
  end.
Proof.
  intros Hu Hh Hs r o' st'. subst r o' st'.
  destruct (rcs st !! Host u) as [rc|] eqn:Hr.
  - by rewrite (GetClient_registered _ _ _ _ Hu Hh Hr).
  - assert (Hl : lookup lib opts st = Missing u) by by apply lookup_Missing.
    rewrite (GetClient_Missing _ _ _ Hl).
    destruct (create lib u opts st) as [[r o'] st'] eqn:Hc. simpl.
    apply create_outcome in Hc
      as [(e & _ & _ & Hs' & _)|(f & -> & Hd & Ha & Hhs & Hcl & Hrcs)];
      [congruence|].
    split; [done|]. split; [done|]. split; [done|].
    rewrite Hs in Hhs.
    destruct f as [dialer addr|dialer addr cfg]; [|done].
    simpl in Ha. subst addr. by exists dialer.
Qed.

End Proofs.

(** ** The helpers and the call at the worked inputs *)

Example path_Split_last_segment :
  path_Split "/2" = ("/", "2") ∧ path_Split "/a/b" = ("/a/", "b")
  ∧ path_Split "/a/" = ("/a/", "") ∧ path_Split "abc" = ("", "abc").
Proof. repeat split; reflexivity. Qed.

Example strconv_Atoi_signs :
  strconv_Atoi "2" = Ok 2 ∧ strconv_Atoi "+12" = Ok 12
  ∧ strconv_Atoi "-1" = Ok (-1) ∧ strconv_Atoi "bogus" = Err ErrSyntax
  ∧ strconv_Atoi "" = Err ErrSyntax ∧ strconv_Atoi "-" = Err ErrSyntax
  ∧ strconv_Atoi "9223372036854775808" = Err ErrRange
  ∧ strconv_Atoi "-9223372036854775808" = Ok minInt.
Proof. repeat split; reflexivity. Qed.

Example strings_EqualFold_letter_case :
  strings_EqualFold "ReDiSS" "rediss" = true
  ∧ strings_EqualFold "redis" "rediss" = false
  ∧ strings_EqualFold "redisS" "rediss" = true.
Proof. repeat split; reflexivity. Qed.

(** [redis://user:pw@host:6379/2]: host:6379, database 2, plain TCP,
    password pw. *)
Example GetClient_plain_URL :
  let out := GetClient example_lib (for_URL "redis://user:pw@host:6379/2") init in
  out.1.1 = Ok 0%nat
  ∧ rcs out.2 !! "host:6379" = Some 0%nat
  ∧ clients out.2
    = [ {| Dialer_ :=
             Some (DialTCP {| Timeout := 30 * Second; KeepAlive := 0 |}
                     "host:6379");
           Password := "pw"; DB := 2; PoolSize := 3; PassThrough := [] |} ].
Proof. repeat split; reflexivity. Qed.

(** [rediss://host:6380/bogus]: host:6380, database 0 after a logged
    error, TLS with the system roots and no client identity. *)
Example GetClient_encrypted_URL :
  let out := GetClient example_lib (for_URL "rediss://host:6380/bogus") init in
  out.1.1 = Ok 0%nat
  ∧ rcs out.2 !! "host:6380" = Some 0%nat
  ∧ clients out.2
    = [ {| Dialer_ :=
             Some (DialWithDialer {| Timeout := 30 * Second; KeepAlive := 0 |}
                     "host:6380"
                     {| ClientSessionCache := 1000; RootCAs := None;
                        Certificates := [] |});
           Password := ""; DB := 0; PoolSize := 3; PassThrough := [] |} ].
Proof. repeat split; reflexivity. Qed.

(** [redis:///1] has no host: the call fails and touches nothing. *)
Example GetClient_no_host :
  let opts := for_URL "redis:///1" in
  GetClient example_lib opts init = (Err NoHost, opts, init).
Proof. reflexivity. Qed.

(** ** The theorems at the worked inputs *)

Lemma C1_same_host_same_handle_witness :
  let opts1 := for_URL "redis://user:pw@host:6379/2" in
  let opts2 :=
    with_files "rediss://host:6379" "missing.pem" "client.key" "client.crt" in
  let later := [for_URL "redis://host:6379/7"; for_URL "rediss://host:6380/bogus"] in
  let st := (run example_lib [] init).2 in
  let st1 := (GetClient example_lib opts1 st).2 in
  GetClient example_lib opts2 st1 = (Ok 0%nat, opts2, st1)
  ∧ (∃ o, clients st1 !! 0%nat = Some o ∧ dials "host:6379" o)
  ∧ (∀ i o, clients st1 !! i = Some o → dials "host:6379" o → i = 0%nat)
  ∧ (rcs st !! "host:6379" = None → constructed st1 = S (constructed st))
  ∧ rcs (run example_lib later st1).2 !! "host:6379" = Some 0%nat.
Proof.
  exact (C1_same_host_same_handle example_lib []
           [for_URL "redis://host:6379/7"; for_URL "rediss://host:6380/bogus"]
           (for_URL "redis://user:pw@host:6379/2")
           (with_files "rediss://host:6379" "missing.pem" "client.key" "client.crt")
           {| Scheme := "redis"; User := userinfo "user" "pw";
              Host := "host:6379"; Path := "/2" |}
           {| Scheme := "rediss"; User := None;
              Host := "host:6379"; Path := "" |}
           0%nat eq_refl eq_refl eq_refl eq_refl).
Defined.

(** Two goroutines ask for the same host:port for the first time; each
    passes line 70 before the other reaches line 146.  Both build a
    client, they return different handles, and the registry keeps the
    one written last. *)
Lemma C2_overlapping_calls_build_two_clients :
  let opts := for_URL "redis://host:6379" in
  let out :=
    interleave example_lib [0; 1; 0; 1]%nat [go opts; go opts] init in
  returns out.1 = [Some (Ok 0%nat); Some (Ok 1%nat)]
  ∧ constructed out.2 = 2%nat
  ∧ rcs out.2 !! "host:6379" = Some 1%nat
  ∧ ¬ (constructed out.2 = 1%nat ∧ ∃ rc, all_returned rc out.1).
Proof.
  split; [reflexivity|]. split; [reflexivity|]. split; [reflexivity|].
  intros [H _]. vm_compute in H. discriminate.
Qed.

(** A successful call overwrites PoolSize, Dialer, DB and Password of
    the caller's options; a call that fails on its CA file has already
    overwritten PoolSize. *)
Lemma C3_options_are_overwritten :
  let opts := for_URL "redis://user:pw@host:6379/2" in
  let o' := (GetClient example_lib opts init).1.2 in
  let bad := with_files "rediss://host:6380" "missing.pem" "" "" in
  let b' := (GetClient example_lib bad init).1.2 in
  o' ≠ opts
  ∧ redis_Options opts = zero_RedisOptions
  ∧ redis_Options o'
    = {| Dialer_ :=
           Some (DialTCP {| Timeout := 30 * Second; KeepAlive := 0 |}
                   "host:6379");
         Password := "pw"; DB := 2; PoolSize := 3; PassThrough := [] |}
  ∧ (GetClient example_lib bad init).1.1
    = Err (UnableToLoadCA "no such file or directory")
  ∧ b' ≠ bad
  ∧ (PoolSize (redis_Options bad), PoolSize (redis_Options b')) = (0, 3).
Proof.
  split; [intros H; vm_compute in H; discriminate|].
  split; [reflexivity|]. split; [reflexivity|]. split; [reflexivity|].
  split; [intros H; vm_compute in H; discriminate|reflexivity].
Qed.

Lemma C4_database_index_witness :
  let opts := for_URL "rediss://host:6380/bogus" in
  let st' := (GetClient example_lib opts init).2 in
  ∃ o, clients st' !! 0%nat = Some o
    ∧ minInt ≤ DB o ≤ maxInt
    ∧ if decide ("/bogus" = "") then DB o = 0
      else
        match strconv_Atoi (path_Split "/bogus").2 with
        | Ok n => DB o = n
        | Err err2 =>
            DB o = 0
            ∧ {| level := ERROR;
                 format := "Unable to get database number from path %v: %v";
                 args := [AStr "/bogus"; AErr err2] |} ∈ log st'
        end.
Proof.
  exact (C4_database_index example_lib (for_URL "rediss://host:6380/bogus") init
           {| Scheme := "rediss"; User := None;
              Host := "host:6380"; Path := "/bogus" |}
           0%nat eq_refl eq_refl).
Defined.

(** The path [/-1] gives the new client the database index -1. *)
Lemma C4_negative_database_index :
  let opts := for_URL "redis://host:6379/-1" in
  let out := GetClient example_lib opts init in
  out.1.1 = Ok 0%nat
  ∧ strconv_Atoi (path_Split "/-1").2 = Ok (-1)
  ∧ ∃ o, clients out.2 !! 0%nat = Some o ∧ DB o = -1 ∧ ¬ (0 ≤ DB o).
Proof.
  split; [reflexivity|]. split; [reflexivity|].
  eexists. split; [reflexivity|]. split; [reflexivity|].
  intros H. vm_compute in H. by apply H.
Qed.

Lemma C5_password_without_username_witness :
  let opts := for_URL "redis://user:pw@host:6379/2" in
  let u := {| Scheme := "redis"; User := userinfo "user" "pw";
              Host := "host:6379"; Path := "/2" |} in
  let st' := (GetClient example_lib opts init).2 in
  (∃ o, clients st' = (clients init ++ [o])%list
     ∧ clients st' !! 0%nat = Some o
     ∧ Password o = "pw")
  ∧ GetClient example_lib opts init
    = create example_lib (without_username u) opts init.
Proof.
  exact (C5_password_without_username example_lib
           (for_URL "redis://user:pw@host:6379/2") init
           {| Scheme := "redis"; User := userinfo "user" "pw";
              Host := "host:6379"; Path := "/2" |}
           0%nat eq_refl eq_refl).
Defined.

(** Two URLs that differ in the user name only give the constructor the
    same options, in which no user name occurs; and a URL without
    userinfo still passes on the password the caller put in the
    options. *)
Lemma C5_username_dropped_own_password_sent :
  let a := GetClient example_lib (for_URL "redis://user:pw@host:6379/2") init in
  let b := GetClient example_lib (for_URL "redis://other:pw@host:6379/2") init in
  let c := GetClient example_lib (with_Password "redis://host:6379" "secret") init in
  clients a.2
    = [ {| Dialer_ :=
             Some (DialTCP {| Timeout := 30 * Second; KeepAlive := 0 |}
                     "host:6379");
           Password := "pw"; DB := 2; PoolSize := 3; PassThrough := [] |} ]
  ∧ clients b.2 = clients a.2
  ∧ url_Parse example_lib "redis://host:6379"
    = parsed "redis" None "host:6379" ""
  ∧ c.1.1 = Ok 0%nat
  ∧ Password <$> clients c.2 !! 0%nat = Some "secret".
Proof. repeat split; reflexivity. Qed.

Lemma C6_client_identity_witness :
  let opts :=
    with_files "rediss://host:6380" "ca.pem" "client.key" "client.crt" in
  let r := (GetClient example_lib opts init).1.1 in
  let st' := (GetClient example_lib opts init).2 in
  let both := ClientPKFile opts ≠ "" ∧ ClientCertFile opts ≠ "" in
  let pair := tls_LoadX509KeyPair example_lib "client.crt" "client.key" in
  (∀ rc, r = Ok rc →
     ∃ o cfg, clients st' !! rc = Some o ∧ tls_of o = Some cfg
       ∧ (Certificates cfg ≠ [] ↔ both)
       ∧ (both → ∃ cert, pair = Ok cert ∧ Certificates cfg = [cert]))
  ∧ (∀ err2, r = Err (UnableToLoadKeyPair err2) → both ∧ pair = Err err2)
  ∧ (¬ both → ∀ e, r = Err e →
       ∃ err2, e = UnableToLoadCA err2 ∧ RedisCAFile opts ≠ ""
         ∧ keyman_LoadCertificateFromFile example_lib (RedisCAFile opts)
             = Err err2)
  ∧ (both → ∀ err2, pair = Err err2 →
       ∃ e, r = Err e ∧ isConfigError e = true
         ∧ clients st' = clients init ∧ rcs st' = rcs init).
Proof.
  exact (C6_client_identity example_lib
           (with_files "rediss://host:6380" "ca.pem" "client.key" "client.crt")
           init
           {| Scheme := "rediss"; User := None;
              Host := "host:6380"; Path := "" |}
           eq_refl eq_refl).
Defined.

(** Once a host:port is registered, an encrypted-scheme call for it
    that names a key pair is answered from the registry: a pair that
    does not load raises no error, and a pair that would load is not
    attached to the client that is returned. *)
Lemma C6_registered_host_skips_key_pair :
  let st1 := (GetClient example_lib (for_URL "rediss://host:6380") init).2 in
  let broken := with_files "rediss://host:6380" "" "bad.key" "bad.crt" in
  let sound := with_files "rediss://host:6380" "" "client.key" "client.crt" in
  tls_LoadX509KeyPair example_lib "bad.crt" "bad.key"
    = Err "no such file or directory"
  ∧ GetClient example_lib broken st1 = (Ok 0%nat, broken, st1)
  ∧ ¬ (∃ e, (GetClient example_lib broken st1).1.1 = Err e)
  ∧ tls_LoadX509KeyPair example_lib "client.crt" "client.key"
    = Ok (PEMKeyPair "CLIENT CERT" "CLIENT KEY")
  ∧ GetClient example_lib sound st1 = (Ok 0%nat, sound, st1)
  ∧ (Certificates <$> (clients st1 !! 0%nat ≫= tls_of)) = Some [].
Proof.
  split; [reflexivity|]. split; [reflexivity|].
  split; [intros [e He]; vm_compute in He; discriminate|].
  repeat split; reflexivity.
Qed.

Lemma C7_root_CAs_witness :
  let opts :=
    with_files "rediss://host:6380" "ca.pem" "client.key" "client.crt" in
  let r := (GetClient example_lib opts init).1.1 in
  let st' := (GetClient example_lib opts init).2 in
  let ca := keyman_LoadCertificateFromFile example_lib "ca.pem" in
  (∀ rc, r = Ok rc →
     ∃ o cfg, clients st' !! rc = Some o ∧ tls_of o = Some cfg
       ∧ if decide ("ca.pem" = "") then RootCAs cfg = None
         else ∃ cert, ca = Ok cert ∧ RootCAs cfg = Some [cert])
  ∧ ("ca.pem" ≠ "" → ∀ err2, ca = Err err2 →
       r = Err (UnableToLoadCA err2)
       ∧ isConfigError (UnableToLoadCA err2) = true
       ∧ clients st' = clients init ∧ rcs st' = rcs init).
Proof.
  exact (C7_root_CAs example_lib
           (with_files "rediss://host:6380" "ca.pem" "client.key" "client.crt")
           init
           {| Scheme := "rediss"; User := None;
              Host := "host:6380"; Path := "" |}
           eq_refl eq_refl).
Defined.

(** Once a host:port is registered, an encrypted-scheme call for it
    that names a CA file is answered from the registry: a file that
    does not load raises no error, and the client that is returned
    trusts the system roots, not the CA that was asked for. *)
Lemma C7_registered_host_skips_CA_file :
  let st1 := (GetClient example_lib (for_URL "rediss://host:6380") init).2 in
  let broken := with_files "rediss://host:6380" "missing.pem" "" "" in
  let sound := with_files "rediss://host:6380" "ca.pem" "" "" in
  keyman_LoadCertificateFromFile example_lib "missing.pem"
    = Err "no such file or directory"
  ∧ GetClient example_lib broken st1 = (Ok 0%nat, broken, st1)
  ∧ ¬ (∃ e, (GetClient example_lib broken st1).1.1 = Err e)
  ∧ keyman_LoadCertificateFromFile example_lib "ca.pem" = Ok (PEMCert "CA")
  ∧ GetClient example_lib sound st1 = (Ok 0%nat, sound, st1)
  ∧ (RootCAs <$> (clients st1 !! 0%nat ≫= tls_of)) = Some None
  ∧ (RootCAs <$> (clients st1 !! 0%nat ≫= tls_of))
    ≠ Some (Some [PEMCert "CA"]).
Proof.
  split; [reflexivity|]. split; [reflexivity|].
  split; [intros [e He]; vm_compute in He; discriminate|].
  split; [reflexivity|]. split; [reflexivity|]. split; [reflexivity|].
  intros H. vm_compute in H. discriminate.
Qed.

Lemma C8_plain_scheme_dials_TCP_witness :
  let o :=
    {| Dialer_ :=
         Some (DialTCP {| Timeout := 30 * Second; KeepAlive := 0 |}
                 "host:6379");
       Password := "pw"; DB := 2; PoolSize := 3; PassThrough := [] |} in
  clients (GetClient example_lib (for_URL "redis://user:pw@host:6379/2") init).2
    = [o]
  ∧ ∃ f, Dialer_ o = Some f
      ∧ (handshakes f = true ↔ to_lower "redis" = "rediss")
      ∧ ("redis" = "redis" →
         f = DialTCP (dial_dialer f) "host:6379" ∧ handshakes f = false).
Proof.
  split; [reflexivity|].
  exact (C8_plain_scheme_dials_TCP example_lib
           (for_URL "redis://user:pw@host:6379/2") init
           {| Scheme := "redis"; User := userinfo "user" "pw";
              Host := "host:6379"; Path := "/2" |}
           {| Dialer_ :=
                Some (DialTCP {| Timeout := 30 * Second; KeepAlive := 0 |}
                        "host:6379");
              Password := "pw"; DB := 2; PoolSize := 3; PassThrough := [] |}
           eq_refl eq_refl).
Defined.

Lemma C9_base_dialer_witness :
  let o :=
    {| Dialer_ :=
         Some (DialTCP {| Timeout := 30 * Second; KeepAlive := 0 |}
                 "host:6379");
       Password := "pw"; DB := 2; PoolSize := 3; PassThrough := [] |} in
  clients (GetClient example_lib (for_URL "redis://user:pw@host:6379/2") init).2
    = [o]
  ∧ ∃ f, Dialer_ o = Some f
      ∧ Timeout (dial_dialer f) = 30 * Second
      ∧ KeepAlive (dial_dialer f) = 0
      ∧ keepalives_disabled (dial_dialer f) = true.
Proof.
  split; [reflexivity|].
  exact (C9_base_dialer example_lib
           (for_URL "redis://user:pw@host:6379/2") init
           {| Dialer_ :=
                Some (DialTCP {| Timeout := 30 * Second; KeepAlive := 0 |}
                        "host:6379");
              Password := "pw"; DB := 2; PoolSize := 3; PassThrough := [] |}
           eq_refl).
Defined.

Lemma C10_other_schemes_dial_TCP_witness :
  let opts := for_URL "http://host:6379" in
  let r := (GetClient example_lib opts init).1.1 in
  let o' := (GetClient example_lib opts init).1.2 in
  let st' := (GetClient example_lib opts init).2 in
  r = Ok 0%nat
  ∧ clients st' = [redis_Options o']
  ∧ rcs st' = <["host:6379" := 0%nat]> ∅
  ∧ ∃ dialer, Dialer_ (redis_Options o') = Some (DialTCP dialer "host:6379").
Proof.
  refine (C10_other_schemes_dial_TCP example_lib (for_URL "http://host:6379")
            init
            {| Scheme := "http"; User := None; Host := "host:6379"; Path := "" |}
            eq_refl _ eq_refl).
  discriminate.
Defined.

(** Once a host:port is registered by an encrypted-scheme call, a call
    for it with the scheme [http] builds nothing and is handed the
    registered client, whose dial function performs a TLS handshake. *)
Lemma C10_registered_host_returns_TLS_client :
  let st1 := (GetClient example_lib (for_URL "rediss://host:6379") init).2 in
  let opts := for_URL "http://host:6379" in
  strings_EqualFold "http" "rediss" = false
  ∧ GetClient example_lib opts st1 = (Ok 0%nat, opts, st1)
  ∧ constructed (GetClient example_lib opts st1).2 = constructed st1
  ∧ (handshakes <$> (clients st1 !! 0%nat ≫= Dialer_)) = Some true
  ∧ (handshakes <$> (clients st1 !! 0%nat ≫= Dialer_)) ≠ Some false.
Proof.
  split; [reflexivity|]. split; [reflexivity|]. split; [reflexivity|].
  split; [reflexivity|]. intros H. vm_compute in H. discriminate.
Qed.

(** ** Further properties of [GetClient] *)

Section More.
Context (lib : Library).

Lemma default_PoolSize_fields opts :
  RedisURL (default_PoolSize opts) = RedisURL opts
  ∧ RedisCAFile (default_PoolSize opts) = RedisCAFile opts
  ∧ ClientPKFile (default_PoolSize opts) = ClientPKFile opts
  ∧ ClientCertFile (default_PoolSize opts) = ClientCertFile opts
  ∧ PassThrough (redis_Options (default_PoolSize opts))
    = PassThrough (redis_Options opts)
  ∧ PoolSize (redis_Options (default_PoolSize opts))
    = (if PoolSize (redis_Options opts) =? 0 then 3
       else PoolSize (redis_Options opts)).
Proof.
  unfold default_PoolSize. by destruct (PoolSize (redis_Options opts) =? 0).
Qed.

(** When the TLS configuration is built and when it fails. *)
Lemma new_tlsConfig_fails opts st :
  (∃ e, (new_tlsConfig lib opts st).1 = Err e) ↔
  (RedisCAFile opts ≠ ""
   ∧ ∃ err2, keyman_LoadCertificateFromFile lib (RedisCAFile opts) = Err err2)
  ∨ (ClientPKFile opts ≠ "" ∧ ClientCertFile opts ≠ ""
     ∧ ∃ err2,
         tls_LoadX509KeyPair lib (ClientCertFile opts) (ClientPKFile opts)
           = Err err2).
Proof.
  split.
  - intros [e He].
    destruct (new_tlsConfig_error lib opts st e He)
      as [(err2 & _ & Hca & Hl)|(err2 & _ & [Hpk Hcert] & Hl)]; eauto 6.
  - pose proof (new_tlsConfig_roots lib opts st) as Hroots.
    pose proof (new_tlsConfig_certs lib opts st) as Hcerts. simpl in Hcerts.
    destruct ((new_tlsConfig lib opts st).1) as [cfg|e]; [|by eauto].
    intros [(Hca & err2 & Hl)|(Hpk & Hcert & err2 & Hl)].
    + destruct Hroots as [_ Hroots]. rewrite decide_False in Hroots by done.
      destruct Hroots as (cert & Hok & _). congruence.
    + destruct Hcerts as [_ Hcerts].
      destruct (Hcerts (conj Hpk Hcert)) as (cert & Hok & _). congruence.
Qed.

(** X1: a call fails in exactly these cases: the URL does not parse; it
    has no host; or the host is not registered, the scheme is [rediss]
    in some letter case, and a CA file is named that does not load or
    both client files are named and the pair does not load. *)
Theorem X1_when_GetClient_fails (opts : Options) (st : State) :
  (∃ e, (GetClient lib opts st).1.1 = Err e) ↔
  match url_Parse lib (RedisURL opts) with
  | Err _ => True
  | Ok u =>
      Host u = ""
      ∨ (rcs st !! Host u = None
         ∧ strings_EqualFold (Scheme u) "rediss" = true
         ∧ ((RedisCAFile opts ≠ ""
             ∧ ∃ err2,
                 keyman_LoadCertificateFromFile lib (RedisCAFile opts)
                   = Err err2)
            ∨ (ClientPKFile opts ≠ "" ∧ ClientCertFile opts ≠ ""
               ∧ ∃ err2,
                   tls_LoadX509KeyPair lib (ClientCertFile opts)
                     (ClientPKFile opts) = Err err2)))
  end.
Proof.
  unfold GetClient, lookup.
  destruct (url_Parse lib (RedisURL opts)) as [u|err];
    [|simpl; split; by eauto].
  destruct (String.eqb_spec (Host u) "") as [Hh|Hh];
    [simpl; split; by eauto|].
  destruct (rcs st !! Host u) as [rc|] eqn:Hr.
  { simpl. split; [by intros [e ?]|]. intros [?|(? & _)]; done. }
  rewrite create_unfold. simpl.
  set (d := new_Dialer (default_PoolSize opts) (database u st).2).
  pose proof (new_tlsConfig_fails (default_PoolSize opts) d.2) as Hf.
  destruct (default_PoolSize_fields opts) as (_ & Hca & Hpk & Hcert & _).
  rewrite Hca, Hpk, Hcert in Hf. rewrite <- Hf. clear Hf.
  unfold new_dialFunc.
  destruct (strings_EqualFold (Scheme u) "rediss").
  - destruct (new_tlsConfig lib (default_PoolSize opts) d.2) as [[cfg|e] st2];
      simpl; split.
    + by intros [e ?].
    + intros [?|(_ & _ & e & ?)]; done.
    + eauto.
    + eauto.
  - simpl. split; [by intros [e ?]|]. intros [?|(_ & ? & _)]; done.
Qed.

(** X2: a call that fails builds no client and leaves the registry as
    it was; its error is either a URL error, and then the options and
    the whole state including the log are untouched, or a certificate
    error. *)
Theorem X2_failure_leaves_registry (opts : Options) (st : State) (e : Error) :
  (GetClient lib opts st).1.1 = Err e →
  let o' := (GetClient lib opts st).1.2 in
  let st' := (GetClient lib opts st).2 in
  rcs st' = rcs st ∧ clients st' = clients st
  ∧ isParseError e = negb (isConfigError e)
  ∧ (isParseError e = true → o' = opts ∧ st' = st)
  ∧ (isConfigError e = true →
     ∃ u, lookup lib opts st = Missing u
       ∧ strings_EqualFold (Scheme u) "rediss" = true).
Proof.
  unfold GetClient.
  destruct (lookup lib opts st) as [rc|u|e0] eqn:Hl; simpl; [done| |].
  - destruct (create lib u opts st) as [[r o'] st'] eqn:Hc. simpl.
    intros ->.
    apply create_outcome in Hc
      as [(e' & [= <-] & Hce & Hs & _ & Hr & Hcl)|(f & ? & _)]; [|done].
    split; [done|]. split; [done|].
    destruct e; try done. all: split; [done|]; split; [done|]; eauto.
  - intros [= ->]. apply lookup_Rejected in Hl.
    destruct e; try done. all: by repeat split.
Qed.

(** The options a building call hands to the constructor. *)
Lemma GetClient_builds_value opts st o :
  clients (GetClient lib opts st).2 = (clients st ++ [o])%list →
  ∃ u f, lookup lib opts st = Missing u
    ∧ o = redis_Options (set_userinfo_Password u
            (set_DB (database u st).1 (set_Dialer f (default_PoolSize opts))))
    ∧ (new_dialFunc lib u
         (new_Dialer (default_PoolSize opts) (database u st).2).1
         (default_PoolSize opts)
         (new_Dialer (default_PoolSize opts) (database u st).2).2).1 = Ok f.
Proof.
  assert (Hno : ∀ l : list RedisOptions, l ≠ (l ++ [o])%list).
  { intros l Hl. apply (f_equal List.length) in Hl.
    rewrite length_app in Hl. simpl in Hl. lia. }
  unfold GetClient.
  destruct (lookup lib opts st) as [rc|u|e] eqn:Hl; simpl;
    [intros H; by apply Hno in H| |intros H; by apply Hno in H].
  rewrite create_unfold. simpl. intros H. exists u. revert H.
  pose proof (database_frame u st) as [_ Hc0].
  pose proof (new_Dialer_frame (default_PoolSize opts) (database u st).2) as [_ Hc1].
  set (d := new_Dialer (default_PoolSize opts) (database u st).2) in *.
  pose proof (new_dialFunc_frame lib u d.1 (default_PoolSize opts) d.2) as [_ Hc].
  intros H.
  destruct (new_dialFunc lib u d.1 (default_PoolSize opts) d.2)
    as [[f|e] st2]; simpl in *; rewrite Hc, Hc1, Hc0 in H;
    [|by apply Hno in H].
  apply app_inv_head in H. injection H as H.
  exists f. split; [done|]. split; [by rewrite <- H|done].
Qed.

(** X3: a call that builds a client hands the constructor a PoolSize of
    3 when the caller's is zero and the caller's own value otherwise,
    and the caller's pass-through fields untouched. *)
Theorem X3_pool_size_default (opts : Options) (st : State) (o : RedisOptions) :
  clients (GetClient lib opts st).2 = (clients st ++ [o])%list →
  PoolSize o
    = (if PoolSize (redis_Options opts) =? 0 then 3
       else PoolSize (redis_Options opts))
  ∧ PoolSize o ≠ 0
  ∧ PassThrough o = PassThrough (redis_Options opts).
Proof.
  intros Hb. apply GetClient_builds_value in Hb as (u & f & _ & -> & _).
  destruct (default_PoolSize_fields opts) as (_ & _ & _ & _ & Hpt & Hps).
  assert (Hset : ∀ db o0,
    PoolSize (redis_Options (set_userinfo_Password u (set_DB db (set_Dialer f o0))))
      = PoolSize (redis_Options o0)
    ∧ PassThrough (redis_Options (set_userinfo_Password u (set_DB db (set_Dialer f o0))))
      = PassThrough (redis_Options o0)).
  { intros db o0. unfold set_userinfo_Password. by destruct (User u). }
  destruct (Hset (database u st).1 (default_PoolSize opts)) as [-> ->].
  rewrite Hps, Hpt. split; [done|]. split; [|done].
  destruct (PoolSize (redis_Options opts) =? 0) eqn:Hz; [done|].
  by apply Z.eqb_neq.
Qed.

(** *** The registry across calls, continued *)

Lemma GetClient_size opts st :
  size (rcs st) = constructed st → rcs st !! "" = None →
  size (rcs (GetClient lib opts st).2) = constructed (GetClient lib opts st).2
  ∧ rcs (GetClient lib opts st).2 !! "" = None.
Proof.
  intros Hsz He. unfold GetClient.
  destruct (lookup lib opts st) as [rc|u|e] eqn:Hl; [done| |done].
  apply lookup_Missing in Hl as (_ & Hh & Hn).
  destruct (create lib u opts st) as [[r o'] st'] eqn:Hc. simpl.
  apply create_outcome in Hc
    as [(e & _ & _ & _ & _ & Hr & Hcl)|(f & _ & _ & _ & _ & Hcl & Hr)];
    unfold constructed in *; rewrite Hr, Hcl.
  - done.
  - rewrite map_size_insert_None by done.
    rewrite length_app, lookup_insert_ne by done. simpl. split; [lia|done].
Qed.

Lemma run_size calls st :
  size (rcs st) = constructed st → rcs st !! "" = None →
  size (rcs (run lib calls st).2) = constructed (run lib calls st).2
  ∧ rcs (run lib calls st).2 !! "" = None.
Proof.
  revert st. induction calls as [|opts calls IH]; intros st Hsz He; [done|].
  simpl. destruct (GetClient_size opts st Hsz He) as [Hsz1 He1].
  destruct (GetClient lib opts st) as [[r o'] st1]. simpl in *.
  specialize (IH st1 Hsz1 He1). by destruct (run lib calls st1).
Qed.

(** X4: after any sequence of calls made one after the other, the
    registry has exactly as many entries as clients were built, the
    empty host is not a key, every registered handle is one of the
    clients built, and no two host:ports share a handle. *)
Theorem X4_registry_matches_clients (calls : list Options) :
  let st := (run lib calls init).2 in
  size (rcs st) = constructed st
  ∧ rcs st !! "" = None
  ∧ (∀ host rc, rcs st !! host = Some rc → (rc < constructed st)%nat)
  ∧ (∀ host1 host2 rc,
       rcs st !! host1 = Some rc → rcs st !! host2 = Some rc → host1 = host2).
Proof.
  intros st.
  destruct (run_size calls init eq_refl (lookup_empty _)) as [Hsz He].
  pose proof (run_registry_ok lib calls init init_registry_ok) as [H1 _].
  fold st in Hsz, He, H1.
  split; [done|]. split; [done|]. split.
  - intros host rc Hr. destruct (H1 _ _ Hr) as (o & Ho & _).
    by apply lookup_lt_Some in Ho.
  - intros host1 host2 rc Hr1 Hr2.
    destruct (H1 _ _ Hr1) as (o1 & Ho1 & f1 & Hf1 & Ha1).
    destruct (H1 _ _ Hr2) as (o2 & Ho2 & f2 & Hf2 & Ha2).
    congruence.
Qed.

(** *** What one call can change *)

Lemma database_log u st : log st `prefix_of` log (database u st).2.
Proof.
  unfold database, Debugf, Errorf, logf.
  repeat case_match; simplify_eq; simpl;
    repeat apply prefix_app_r; reflexivity.
Qed.

Lemma new_Dialer_log_prefix opts st :
  log st `prefix_of` log (new_Dialer opts st).2.
Proof.
  unfold new_Dialer, Debugf, logf; simpl.
  destruct (DialTimeout opts =? 0); simpl;
    repeat apply prefix_app_r; reflexivity.
Qed.

Lemma new_dialFunc_log_prefix u dialer opts st :
  log st `prefix_of` log (new_dialFunc lib u dialer opts st).2.
Proof.
  unfold new_dialFunc, new_tlsConfig, root_CAs, client_Certificates,
    Debug, Debugf, Errorf, logf.
  repeat case_match; simplify_eq; simpl;
    repeat apply prefix_app_r; reflexivity.
Qed.

Lemma create_log u opts st : log st `prefix_of` log (create lib u opts st).2.
Proof.
  rewrite create_unfold. simpl.
  set (d := new_Dialer (default_PoolSize opts) (database u st).2).
  assert (log st `prefix_of` log d.2) as Hd.
  { etrans; [apply database_log|apply new_Dialer_log_prefix]. }
  pose proof (new_dialFunc_log_prefix u d.1 (default_PoolSize opts) d.2) as Hf.
  destruct (new_dialFunc lib u d.1 (default_PoolSize opts) d.2)
    as [[f|e] st2]; simpl in *; by etrans.
Qed.

(** X5: one call appends to the client list and to the log and never
    rewrites them, builds at most one client, and leaves every
    registry entry as it was except that it may add one under the
    host of its own URL, for the client it has just built. *)
Theorem X5_one_call_frame (opts : Options) (st : State) :
  let st' := (GetClient lib opts st).2 in
  clients st `prefix_of` clients st'
  ∧ (constructed st' ≤ S (constructed st))%nat
  ∧ log st `prefix_of` log st'
  ∧ ∀ host,
      rcs st' !! host = rcs st !! host
      ∨ (rcs st !! host = None
         ∧ rcs st' !! host = Some (constructed st)
         ∧ constructed st' = S (constructed st)
         ∧ ∃ u, url_Parse lib (RedisURL opts) = Ok u ∧ host = Host u).
Proof.
  unfold GetClient, constructed.
  destruct (lookup lib opts st) as [rc|u|e] eqn:Hl; simpl;
    [repeat split; eauto| |repeat split; eauto].
  apply lookup_Missing in Hl as (Hu & Hh & Hn).
  pose proof (create_log u opts st) as Hlog.
  destruct (create lib u opts st) as [[r o'] st'] eqn:Hc. simpl in *.
  apply create_outcome in Hc
    as [(e & _ & _ & _ & _ & Hr & Hcl)|(f & _ & _ & _ & _ & Hcl & Hr)];
    rewrite Hr, Hcl.
  - repeat split; eauto.
  - split; [by apply prefix_app_r|]. rewrite length_app. simpl.
    split; [lia|]. split; [done|].
    intros host. destruct (decide (Host u = host)) as [<-|Hne].
    + right. rewrite lookup_insert_eq. repeat split; eauto. lia.
    + left. by rewrite lookup_insert_ne.
Qed.

(** *** The log is only written *)

Lemma database_value u st1 st2 : (database u st1).1 = (database u st2).1.
Proof.
  unfold database.
  destruct (0 <? Z.of_nat (String.length (Path u))); [|done].
  destruct (path_Split (Path u)) as [dir dbstring].
  by destruct (strconv_Atoi dbstring).
Qed.

Lemma new_Dialer_indep opts st1 st2 :
  (new_Dialer opts st1).1 = (new_Dialer opts st2).1.
Proof. unfold new_Dialer; simpl. by destruct (DialTimeout opts =? 0). Qed.

Lemma new_dialFunc_indep u dialer opts st1 st2 :
  (new_dialFunc lib u dialer opts st1).1 = (new_dialFunc lib u dialer opts st2).1.
Proof.
  unfold new_dialFunc, new_tlsConfig, root_CAs, client_Certificates.
  destruct (strings_EqualFold (Scheme u) "rediss"); [|done].
  destruct (String.eqb (RedisCAFile opts) "");
    [|destruct (keyman_LoadCertificateFromFile lib (RedisCAFile opts)); [|done]];
    (destruct (String.eqb (ClientPKFile opts) "" || String.eqb (ClientCertFile opts) "");
     [done|];
     by destruct (tls_LoadX509KeyPair lib (ClientCertFile opts) (ClientPKFile opts))).
Qed.

Lemma create_indep u opts st1 st2 :
  rcs st1 = rcs st2 → clients st1 = clients st2 →
  (create lib u opts st1).1 = (create lib u opts st2).1
  ∧ rcs (create lib u opts st1).2 = rcs (create lib u opts st2).2
  ∧ clients (create lib u opts st1).2 = clients (create lib u opts st2).2.
Proof.
  intros Hr Hc. rewrite !create_unfold. simpl.
  rewrite (database_value u st1 st2).
  set (d1 := new_Dialer (default_PoolSize opts) (database u st1).2).
  set (d2 := new_Dialer (default_PoolSize opts) (database u st2).2).
  assert (Hd : d1.1 = d2.1) by apply new_Dialer_indep.
  assert (Hr1 : rcs d1.2 = rcs d2.2 ∧ clients d1.2 = clients d2.2).
  { unfold d1, d2.
    destruct (new_Dialer_frame (default_PoolSize opts) (database u st1).2) as [-> ->].
    destruct (new_Dialer_frame (default_PoolSize opts) (database u st2).2) as [-> ->].
    destruct (database_frame u st1) as [-> ->].
    by destruct (database_frame u st2) as [-> ->]. }
  destruct Hr1 as [Hr1 Hc1]. rewrite Hd.
  pose proof (new_dialFunc_indep u d2.1 (default_PoolSize opts) d1.2 d2.2) as Hf.
  destruct (new_dialFunc_frame lib u d2.1 (default_PoolSize opts) d1.2) as [Hfr1 Hfc1].
  destruct (new_dialFunc_frame lib u d2.1 (default_PoolSize opts) d2.2) as [Hfr2 Hfc2].
  destruct (new_dialFunc lib u d2.1 (default_PoolSize opts) d1.2) as [[f1|e1] s1];
    destruct (new_dialFunc lib u d2.1 (default_PoolSize opts) d2.2) as [[f2|e2] s2];
    simpl in *; simplify_eq.
  - assert (Hcl : clients s1 = clients s2) by congruence.
    assert (Hrc : rcs s1 = rcs s2) by congruence.
    by rewrite Hcl, Hrc.
  - repeat split; congruence.
Qed.

Lemma GetClient_indep opts st1 st2 :
  rcs st1 = rcs st2 → clients st1 = clients st2 →
  (GetClient lib opts st1).1 = (GetClient lib opts st2).1
  ∧ rcs (GetClient lib opts st1).2 = rcs (GetClient lib opts st2).2
  ∧ clients (GetClient lib opts st1).2 = clients (GetClient lib opts st2).2.
Proof.
  intros Hr Hc. unfold GetClient.
  assert (Hl : lookup lib opts st1 = lookup lib opts st2)
    by (unfold lookup; by rewrite Hr).
  rewrite Hl. destruct (lookup lib opts st2) as [rc|u|e]; [done| |done].
  by apply create_indep.
Qed.

Lemma GetClient_Err_frame opts st e :
  (GetClient lib opts st).1.1 = Err e →
  rcs (GetClient lib opts st).2 = rcs st
  ∧ clients (GetClient lib opts st).2 = clients st.
Proof.
  unfold GetClient.
  destruct (lookup lib opts st) as [rc|u|e0] eqn:Hl; simpl; [done| |done].
  destruct (create lib u opts st) as [[r o'] st'] eqn:Hc. simpl. intros ->.
  by apply create_outcome in Hc
    as [(e' & _ & _ & _ & _ & Hr & Hcl)|(f & ? & _)].
Qed.

(** X6: the log is never read, and a failed call has no effect on later
    ones: after a call that fails, any call returns the result, writes
    the options and leaves the registry and the clients exactly as it
    would have done had the failed call not been made. *)
Theorem X6_failed_call_changes_nothing_later
    (opts opts2 : Options) (st : State) (e : Error) :
  (GetClient lib opts st).1.1 = Err e →
  let st1 := (GetClient lib opts st).2 in
  (GetClient lib opts2 st1).1 = (GetClient lib opts2 st).1
  ∧ rcs (GetClient lib opts2 st1).2 = rcs (GetClient lib opts2 st).2
  ∧ clients (GetClient lib opts2 st1).2 = clients (GetClient lib opts2 st).2.
Proof.
  intros He st1. destruct (GetClient_Err_frame _ _ _ He) as [Hr Hc].
  by apply GetClient_indep.
Qed.

(** *** The TLS dial function *)

(** X7: whenever a call builds a client for a URL whose scheme is
    [rediss] in some letter case, the client dials through
    tls.DialWithDialer over the base dialer, to the host:port of the
    URL, with a session cache of capacity 1000, at most one client
    certificate, and a nil root pool exactly when no CA file is
    named. *)
Theorem X7_encrypted_dial_function (opts : Options) (st : State) (u : URL)
    (o : RedisOptions) :
  url_Parse lib (RedisURL opts) = Ok u →
  strings_EqualFold (Scheme u) "rediss" = true →
  clients (GetClient lib opts st).2 = (clients st ++ [o])%list →
  ∃ cfg,
    Dialer_ o
      = Some (DialWithDialer
                {| Timeout := (if DialTimeout opts =? 0 then 30 * Second
                               else DialTimeout opts);
                   KeepAlive := TCPKeepAlive opts |}
                (Host u) cfg)
    ∧ ClientSessionCache cfg = 1000
    ∧ (List.length (Certificates cfg) ≤ 1)%nat
    ∧ (RootCAs cfg = None ↔ RedisCAFile opts = "").
Proof.
  intros Hu Hs Hb.
  apply GetClient_builds_value in Hb as (u' & f & Hl & -> & Hf).
  apply lookup_Missing in Hl as (Hu' & _ & _).
  rewrite Hu in Hu'. injection Hu' as <-.
  set (d := new_Dialer (default_PoolSize opts) (database u st).2) in *.
  pose proof (new_tlsConfig_roots lib (default_PoolSize opts) d.2) as Hroots.
  pose proof (new_tlsConfig_certs lib (default_PoolSize opts) d.2) as Hcerts.
  simpl in Hcerts.
  destruct (default_PoolSize_fields opts) as (_ & Hca & _).
  rewrite Hca in Hroots.
  assert (Hd : d.1 = {| Timeout := (if DialTimeout opts =? 0 then 30 * Second
                                    else DialTimeout opts);
                        KeepAlive := TCPKeepAlive opts |}).
  { subst d. unfold new_Dialer, default_PoolSize; simpl.
    destruct (PoolSize (redis_Options opts) =? 0); simpl;
      by destruct (DialTimeout opts =? 0). }
  unfold new_dialFunc in Hf. rewrite Hs in Hf.
  destruct (new_tlsConfig lib (default_PoolSize opts) d.2) as [[cfg|e] st2];
    simpl in *; [|done].
  injection Hf as <-. exists cfg. split.
  { rewrite Hd. unfold set_userinfo_Password. by destruct (User u). }
  destruct Hroots as [Hcache Hroots]. split; [done|]. split.
  - destruct Hcerts as [Hiff Hboth].
    destruct (decide (ClientPKFile (default_PoolSize opts) ≠ ""
                      ∧ ClientCertFile (default_PoolSize opts) ≠ "")) as [Hb|Hb].
    + destruct (Hboth Hb) as (cert & _ & ->). simpl. lia.
    + destruct (Certificates cfg) as [|c l] eqn:Hc; [simpl; lia|].
      exfalso. apply Hb. by apply Hiff.
  - destruct (decide (RedisCAFile opts = "")) as [Hc|Hc]; [done|].
    destruct Hroots as (cert & _ & ->). done.
Qed.

(** *** The last segment of the path *)

Lemma LastIndexByte_from_none c s i last :
  no_byte c s = true → LastIndexByte_from s c i last = last.
Proof.
  revert i last. induction s as [|a s IH]; intros i last H; simpl in *; [done|].
  apply andb_true_iff in H as [Ha Hs]. apply negb_true_iff in Ha.
  rewrite Ha. by apply IH.
Qed.

Lemma LastIndexByte_from_app c dir file i last :
  no_byte c file = true →
  LastIndexByte_from (dir ++ String c file) c i last
  = i + Z.of_nat (String.length dir).
Proof.
  revert i last. induction dir as [|a dir IH]; intros i last H; simpl.
  - rewrite Ascii.eqb_refl, LastIndexByte_from_none by done. lia.
  - rewrite IH by done. lia.
Qed.

Lemma length_append (a b : string) :
  String.length (a ++ b) = (String.length a + String.length b)%nat.
Proof. induction a as [|c a IH]; simpl; [done|]. by rewrite IH. Qed.

Lemma append_String (a : string) (c : ascii) (b : string) :
  a ++ String c b = (a ++ String c "") ++ b.
Proof.
  induction a as [|x a IH]; [done|].
  change (String x (a ++ String c b) = String x ((a ++ String c "") ++ b)).
  by f_equal.
Qed.

Lemma substring_all (s : string) : substring 0 (String.length s) s = s.
Proof. induction s as [|c s IH]; simpl; [done|]. by rewrite IH. Qed.

Lemma substring_append_l (a b : string) :
  substring 0 (String.length a) (a ++ b) = a.
Proof.
  induction a as [|c a IH]; simpl; [by destruct b|]. by rewrite IH.
Qed.

Lemma substring_append_r (a b : string) :
  substring (String.length a) (String.length b) (a ++ b) = b.
Proof. induction a as [|c a IH]; simpl; [apply substring_all|done]. Qed.

(** path.Split cuts after the last slash. *)
Lemma path_Split_app (dir file : string) :
  no_byte "/" file = true →
  path_Split (dir ++ String "/" file) = (dir ++ "/", file).
Proof.
  intros H. unfold path_Split, LastIndexByte, slice_to, slice_from.
  rewrite LastIndexByte_from_app by done.
  replace (Z.to_nat (0 + Z.of_nat (String.length dir) + 1))
    with (String.length (dir ++ "/")) by (rewrite length_append; simpl; lia).
  rewrite (append_String dir "/" file).
  replace (String.length ((dir ++ "/") ++ file) - String.length (dir ++ "/"))%nat
    with (String.length file) by (rewrite (length_append (dir ++ "/")); lia).
  by rewrite substring_append_l, substring_append_r.
Qed.

Lemma database_last_segment u st (dir file : string) :
  Path u = dir ++ String "/" file → no_byte "/" file = true →
  (database u st).1
  = match strconv_Atoi file with Ok n => n | Err _ => 0 end.
Proof.
  intros Hp Hf. unfold database. rewrite Hp, path_Split_app by done.
  assert ((0 <? Z.of_nat (String.length (dir ++ String "/" file))) = true)
    as ->.
  { apply Z.ltb_lt. rewrite length_append. simpl. lia. }
  by destruct (strconv_Atoi file).
Qed.

(** X8: only the text after the last slash of the path selects the
    database.  When a call builds a client for a URL whose path is
    [dir/file] with no slash in [file], the client's database index is
    the integer strconv.Atoi reads from [file], and 0 when it reads
    none, whatever [dir] is; so a path that ends in a slash selects
    database 0. *)
Theorem X8_database_from_last_segment (opts : Options) (st : State) (u : URL)
    (o : RedisOptions) (dir file : string) :
  url_Parse lib (RedisURL opts) = Ok u →
  Path u = dir ++ String "/" file →
  no_byte "/" file = true →
  clients (GetClient lib opts st).2 = (clients st ++ [o])%list →
  DB o = match strconv_Atoi file with Ok n => n | Err _ => 0 end
  ∧ (file = "" → DB o = 0).
Proof.
  intros Hu Hp Hf Hb.
  apply GetClient_builds_value in Hb as (u' & f & Hl & -> & _).
  apply lookup_Missing in Hl as (Hu' & _ & _).
  rewrite Hu in Hu'. injection Hu' as <-.
  assert (HDB : DB (redis_Options (set_userinfo_Password u
            (set_DB (database u st).1 (set_Dialer f (default_PoolSize opts)))))
          = (database u st).1).
  { unfold set_userinfo_Password. by destruct (User u). }
  rewrite HDB, (database_last_segment u st dir file Hp Hf).
  split; [done|]. by intros ->.
Qed.

End More.

(** ** What a call asks of the outside world *)

Section Outside.
Context (lib1 lib2 : Library).

Lemma new_tlsConfig_agree opts st :
  (RedisCAFile opts ≠ "" →
   keyman_LoadCertificateFromFile lib1 (RedisCAFile opts)
   = keyman_LoadCertificateFromFile lib2 (RedisCAFile opts)) →
  (ClientPKFile opts ≠ "" → ClientCertFile opts ≠ "" →
   tls_LoadX509KeyPair lib1 (ClientCertFile opts) (ClientPKFile opts)
   = tls_LoadX509KeyPair lib2 (ClientCertFile opts) (ClientPKFile opts)) →
  new_tlsConfig lib1 opts st = new_tlsConfig lib2 opts st.
Proof.
  intros Hca Hpair. unfold new_tlsConfig, root_CAs, client_Certificates.
  destruct (String.eqb_spec (RedisCAFile opts) "") as [Hc|Hc];
    [|rewrite (Hca Hc)];
    destruct (String.eqb_spec (ClientPKFile opts) "") as [Hpk|Hpk];
    destruct (String.eqb_spec (ClientCertFile opts) "") as [Hcert|Hcert];
    simpl; try done; by rewrite (Hpair Hpk Hcert).
Qed.

Lemma create_agree u opts st :
  (strings_EqualFold (Scheme u) "rediss" = true →
   (RedisCAFile opts ≠ "" →
    keyman_LoadCertificateFromFile lib1 (RedisCAFile opts)
    = keyman_LoadCertificateFromFile lib2 (RedisCAFile opts))
   ∧ (ClientPKFile opts ≠ "" → ClientCertFile opts ≠ "" →
      tls_LoadX509KeyPair lib1 (ClientCertFile opts) (ClientPKFile opts)
      = tls_LoadX509KeyPair lib2 (ClientCertFile opts) (ClientPKFile opts))) →
  create lib1 u opts st = create lib2 u opts st.
Proof.
  intros H. unfold create.
  destruct (database u st) as [db st0].
  destruct (new_Dialer (default_PoolSize opts) st0) as [dialer st1].
  unfold new_dialFunc.
  destruct (strings_EqualFold (Scheme u) "rediss"); [|done].
  destruct (H eq_refl) as [Hca Hpair].
  destruct (default_PoolSize_fields opts) as (_ & Eca & Epk & Ecert & _).
  rewrite (new_tlsConfig_agree (default_PoolSize opts) st1); [done| |];
    rewrite ?Eca, ?Epk, ?Ecert; done.
Qed.

(** X9: a call learns of the outside world only what url.Parse says of
    RedisURL, what the CA file named in RedisCAFile holds, and what the
    pair named in ClientCertFile and ClientPKFile holds when both are
    named.  Two worlds that agree on these give the same result, the
    same options and the same state. *)
Theorem X9_reads_only_named_files (opts : Options) (st : State) :
  url_Parse lib1 (RedisURL opts) = url_Parse lib2 (RedisURL opts) →
  (RedisCAFile opts ≠ "" →
   keyman_LoadCertificateFromFile lib1 (RedisCAFile opts)
   = keyman_LoadCertificateFromFile lib2 (RedisCAFile opts)) →
  (ClientPKFile opts ≠ "" → ClientCertFile opts ≠ "" →
   tls_LoadX509KeyPair lib1 (ClientCertFile opts) (ClientPKFile opts)
   = tls_LoadX509KeyPair lib2 (ClientCertFile opts) (ClientPKFile opts)) →
  GetClient lib1 opts st = GetClient lib2 opts st.
Proof.
  intros Hu Hca Hpair. unfold GetClient.
  assert (Hl : lookup lib1 opts st = lookup lib2 opts st)
    by (unfold lookup; by rewrite Hu).
  rewrite Hl. destruct (lookup lib2 opts st) as [rc|u|e]; [done| |done].
  by apply create_agree.
Qed.

(** X10: a call whose URL has a scheme other than [rediss], or whose
    host:port is already registered, reads no certificate file at all:
    its result, options and state are the same whatever the files named
    in the options hold. *)
Theorem X10_no_file_read_without_TLS (opts : Options) (st : State) :
  url_Parse lib1 (RedisURL opts) = url_Parse lib2 (RedisURL opts) →
  (∀ u, url_Parse lib1 (RedisURL opts) = Ok u →
     strings_EqualFold (Scheme u) "rediss" = false
     ∨ is_Some (rcs st !! Host u)) →
  GetClient lib1 opts st = GetClient lib2 opts st.
Proof.
  intros Hu Hplain. unfold GetClient.
  assert (Hl : lookup lib1 opts st = lookup lib2 opts st)
    by (unfold lookup; by rewrite Hu).
  rewrite <- Hl. destruct (lookup lib1 opts st) as [rc|u|e] eqn:Hl1;
    [done| |done].
  apply lookup_Missing in Hl1 as (Hu1 & _ & Hn).
  apply create_agree. intros Hs.
  destruct (Hplain u Hu1) as [Hf|[rc Hrc]]; congruence.
Qed.

End Outside.

(** ** Calls that overlap, continued *)

Section Overlap.
Context (lib : Library).

Lemma create_RedisURL u opts st :
  RedisURL (create lib u opts st).1.2 = RedisURL opts.
Proof.
  rewrite create_unfold. simpl.
  destruct (default_PoolSize_fields opts) as (Hurl & _).
  destruct (new_dialFunc lib u _ _ _) as [[f|e] st2]; simpl; [|done].
  unfold set_userinfo_Password. by destruct (User u).
Qed.

Lemma goroutine_ok_mono st st' g :
  clients st `prefix_of` clients st' →
  goroutine_ok lib st g → goroutine_ok lib st' g.
Proof.
  intros [k Hk]. unfold goroutine_ok.
  destruct (g_pc g) as [|u|[rc|e]]; try done.
  intros (u & o & Hu & Ho & Hd). exists u, o. split; [done|]. split; [|done].
  rewrite Hk. by apply lookup_app_l_Some.
Qed.

Lemma step_safe g st :
  registered_dial st → goroutine_ok lib st g →
  registered_dial (step lib g st).2
  ∧ goroutine_ok lib (step lib g st).2 (step lib g st).1
  ∧ clients st `prefix_of` clients (step lib g st).2
  ∧ RedisURL (g_opts (step lib g st).1) = RedisURL (g_opts g).
Proof.
  intros Hreg Hg. unfold step, goroutine_ok in *.
  destruct (g_pc g) as [|u|r] eqn:Hpc.
  - destruct (lookup lib (g_opts g) st) as [rc|u|e] eqn:Hl; simpl.
    + apply lookup_Found in Hl as (u & Hu & _ & Hr).
      destruct (Hreg _ _ Hr) as (o & Ho & Hd). repeat split; eauto.
    + apply lookup_Missing in Hl as (Hu & _). by repeat split.
    + by repeat split.
  - pose proof (create_RedisURL u (g_opts g) st) as Hurl.
    destruct (create lib u (g_opts g) st) as [[r o'] st'] eqn:Hc.
    simpl in *.
    apply create_outcome in Hc
      as [(e & -> & _ & _ & _ & Hr & Hcl)|(f & -> & Hd & Ha & _ & Hcl & Hr)].
    + split; [|by rewrite Hcl].
      intros host rc. rewrite Hr, Hcl. apply Hreg.
    + assert (Hnew : clients st' !! List.length (clients st)
                     = Some (redis_Options o')).
      { by rewrite Hcl, lookup_app_r, Nat.sub_diag. }
      split; [|split; [|split; [by rewrite Hcl; apply prefix_app_r|done]]].
      * intros host rc. rewrite Hr.
        destruct (decide (Host u = host)) as [<-|Hne].
        -- rewrite lookup_insert_eq. intros [= <-].
           exists (redis_Options o'). split; [done|]. by exists f.
        -- rewrite lookup_insert_ne by done. intros Hrc.
           destruct (Hreg _ _ Hrc) as (o & Ho & Hdo). exists o.
           split; [|done]. rewrite Hcl. by apply lookup_app_l_Some.
      * exists u, (redis_Options o'). rewrite Hurl.
        split; [done|]. split; [done|]. by exists f.
  - simpl. rewrite Hpc. by repeat split.
Qed.

Lemma interleave_safe sched gs st :
  registered_dial st → Forall (goroutine_ok lib st) gs →
  registered_dial (interleave lib sched gs st).2
  ∧ Forall (goroutine_ok lib (interleave lib sched gs st).2)
      (interleave lib sched gs st).1
  ∧ map (λ g, RedisURL (g_opts g)) (interleave lib sched gs st).1
    = map (λ g, RedisURL (g_opts g)) gs.
Proof.
  revert gs st. induction sched as [|i sched IH]; intros gs st Hreg Hgs;
    [done|].
  simpl. destruct (gs !! i) as [g|] eqn:Hi; [|by apply IH].
  pose proof (step_safe g st Hreg (proj1 (Forall_lookup _ _) Hgs _ _ Hi))
    as (Hreg' & Hg' & Hpre & Hurl).
  destruct (step lib g st) as [g' st']. simpl in *.
  destruct (IH (<[i:=g']> gs) st' Hreg') as (H1 & H2 & H3).
  { apply Forall_insert; [|done].
    eapply Forall_impl; [done|]. intros x. by apply goroutine_ok_mono. }
  split; [done|]. split; [done|]. rewrite H3.
  rewrite list_fmap_insert, Hurl. apply list_insert_id.
  by rewrite list_lookup_fmap, Hi.
Qed.

(** X11: however the steps of overlapping calls are scheduled, every
    registry entry names a built client that dials the key it is
    registered under, and every call that has returned a client has
    returned a built client that dials the host:port of its own URL. *)
Theorem X11_overlap_keeps_handles_sound (sched : list nat)
    (calls : list Options) :
  let out := interleave lib sched (map go calls) init in
  registered_dial out.2
  ∧ ∀ i g rc,
      out.1 !! i = Some g → g_pc g = Returned (Ok rc) →
      ∃ opts u o,
        calls !! i = Some opts ∧ url_Parse lib (RedisURL opts) = Ok u
        ∧ clients out.2 !! rc = Some o ∧ dials (Host u) o.
Proof.
  intros out.
  destruct (interleave_safe sched (map go calls) init) as (Hreg & Hgs & Hurl).
  { intros host rc. simpl. by rewrite lookup_empty. }
  { apply Forall_forall. intros g Hg.
    apply list_elem_of_fmap in Hg as (opts & -> & _). done. }
  fold out in Hreg, Hgs, Hurl. split; [done|].
  intros i g rc Hi Hpc.
  pose proof (proj1 (Forall_lookup _ _) Hgs _ _ Hi) as Hg.
  unfold goroutine_ok in Hg. rewrite Hpc in Hg.
  destruct Hg as (u & o & Hu & Ho & Hd).
  assert (Hsame : (map (λ g, RedisURL (g_opts g)) (map go calls)) !! i
                  = Some (RedisURL (g_opts g))).
  { rewrite <- Hurl. by rewrite list_lookup_fmap, Hi. }
  rewrite !list_lookup_fmap in Hsame.
  destruct (calls !! i) as [opts|] eqn:Hc; [|done].
  simpl in Hsame. injection Hsame as Hsame.
  exists opts, u, o. rewrite Hsame. done.
Qed.

End Overlap.

(** ** The further properties at the worked inputs *)

Lemma X2_failure_leaves_registry_witness :
  let opts := with_files "rediss://host:6380" "missing.pem" "" "" in
  let e := UnableToLoadCA "no such file or directory" in
  let o' := (GetClient example_lib opts init).1.2 in
  let st' := (GetClient example_lib opts init).2 in
  (GetClient example_lib opts init).1.1 = Err e
  ∧ rcs st' = rcs init ∧ clients st' = clients init
  ∧ isParseError e = negb (isConfigError e)
  ∧ (isParseError e = true → o' = opts ∧ st' = init)
  ∧ (isConfigError e = true →
     ∃ u, lookup example_lib opts init = Missing u
       ∧ strings_EqualFold (Scheme u) "rediss" = true).
Proof.
  split; [reflexivity|].
  exact (X2_failure_leaves_registry example_lib
           (with_files "rediss://host:6380" "missing.pem" "" "") init
           (UnableToLoadCA "no such file or directory") eq_refl).
Defined.

Lemma X3_pool_size_default_witness :
  let opts := for_URL "redis://user:pw@host:6379/2" in
  let o :=
    {| Dialer_ :=
         Some (DialTCP {| Timeout := 30 * Second; KeepAlive := 0 |}
                 "host:6379");
       Password := "pw"; DB := 2; PoolSize := 3; PassThrough := [] |} in
  clients (GetClient example_lib opts init).2 = [o]
  ∧ PoolSize o = 3 ∧ PoolSize o ≠ 0
  ∧ PassThrough o = PassThrough (redis_Options opts).
Proof.
  split; [reflexivity|].
  exact (X3_pool_size_default example_lib
           (for_URL "redis://user:pw@host:6379/2") init
           {| Dialer_ :=
                Some (DialTCP {| Timeout := 30 * Second; KeepAlive := 0 |}
                        "host:6379");
              Password := "pw"; DB := 2; PoolSize := 3; PassThrough := [] |}
           eq_refl).
Defined.

Lemma X6_failed_call_changes_nothing_later_witness :
  let opts := with_files "rediss://host:6380" "missing.pem" "" "" in
  let opts2 := for_URL "rediss://host:6380" in
  let st1 := (GetClient example_lib opts init).2 in
  log st1 ≠ log init
  ∧ (GetClient example_lib opts2 st1).1 = (GetClient example_lib opts2 init).1
  ∧ rcs (GetClient example_lib opts2 st1).2
    = rcs (GetClient example_lib opts2 init).2
  ∧ clients (GetClient example_lib opts2 st1).2
    = clients (GetClient example_lib opts2 init).2.
Proof.
  split; [intros H; vm_compute in H; discriminate|].
  exact (X6_failed_call_changes_nothing_later example_lib
           (with_files "rediss://host:6380" "missing.pem" "" "")
           (for_URL "rediss://host:6380") init
           (UnableToLoadCA "no such file or directory") eq_refl).
Defined.

Lemma X7_encrypted_dial_function_witness :
  let opts :=
    with_files "rediss://host:6380" "ca.pem" "client.key" "client.crt" in
  let o :=
    {| Dialer_ :=
         Some (DialWithDialer {| Timeout := 30 * Second; KeepAlive := 0 |}
                 "host:6380"
                 {| ClientSessionCache := 1000;
                    RootCAs := Some [PEMCert "CA"];
                    Certificates := [PEMKeyPair "CLIENT CERT" "CLIENT KEY"] |});
       Password := ""; DB := 0; PoolSize := 3; PassThrough := [] |} in
  clients (GetClient example_lib opts init).2 = [o]
  ∧ ∃ cfg,
      Dialer_ o
        = Some (DialWithDialer {| Timeout := 30 * Second; KeepAlive := 0 |}
                  "host:6380" cfg)
      ∧ ClientSessionCache cfg = 1000
      ∧ (List.length (Certificates cfg) ≤ 1)%nat
      ∧ (RootCAs cfg = None ↔ "ca.pem" = "").
Proof.
  split; [reflexivity|].
  exact (X7_encrypted_dial_function example_lib
           (with_files "rediss://host:6380" "ca.pem" "client.key" "client.crt")
           init
           {| Scheme := "rediss"; User := None;
              Host := "host:6380"; Path := "" |}
           {| Dialer_ :=
                Some (DialWithDialer {| Timeout := 30 * Second; KeepAlive := 0 |}
                        "host:6380"
                        {| ClientSessionCache := 1000;
                           RootCAs := Some [PEMCert "CA"];
                           Certificates :=
                             [PEMKeyPair "CLIENT CERT" "CLIENT KEY"] |});
              Password := ""; DB := 0; PoolSize := 3; PassThrough := [] |}
           eq_refl eq_refl eq_refl).
Defined.

Lemma X8_database_from_last_segment_witness :
  let opts := for_URL "redis://host:6379/7" in
  let o :=
    {| Dialer_ :=
         Some (DialTCP {| Timeout := 30 * Second; KeepAlive := 0 |}
                 "host:6379");
       Password := ""; DB := 7; PoolSize := 3; PassThrough := [] |} in
  clients (GetClient example_lib opts init).2 = [o]
  ∧ DB o = match strconv_Atoi "7" with Ok n => n | Err _ => 0 end
  ∧ ("7" = "" → DB o = 0).
Proof.
  split; [reflexivity|].
  exact (X8_database_from_last_segment example_lib
           (for_URL "redis://host:6379/7") init
           {| Scheme := "redis"; User := None;
              Host := "host:6379"; Path := "/7" |}
           {| Dialer_ :=
                Some (DialTCP {| Timeout := 30 * Second; KeepAlive := 0 |}
                        "host:6379");
              Password := ""; DB := 7; PoolSize := 3; PassThrough := [] |}
           "" "7" eq_refl eq_refl eq_refl eq_refl).
Defined.

Lemma X9_reads_only_named_files_witness :
  let opts := with_files "rediss://host:6380" "" "client.key" "" in
  tls_LoadX509KeyPair example_lib "client.crt" "client.key"
  ≠ tls_LoadX509KeyPair no_files_lib "client.crt" "client.key"
  ∧ GetClient example_lib opts init = GetClient no_files_lib opts init.
Proof.
  split; [discriminate|].
  refine (X9_reads_only_named_files example_lib no_files_lib
            (with_files "rediss://host:6380" "" "client.key" "") init
            eq_refl _ _).
  - intros H. exfalso. apply H. reflexivity.
  - intros _ H. exfalso. apply H. reflexivity.
Defined.

Lemma X10_no_file_read_without_TLS_witness :
  let opts := with_files "redis://host:6379" "ca.pem" "client.key" "client.crt" in
  keyman_LoadCertificateFromFile example_lib "ca.pem"
  ≠ keyman_LoadCertificateFromFile no_files_lib "ca.pem"
  ∧ GetClient example_lib opts init = GetClient no_files_lib opts init.
Proof.
  split; [discriminate|].
  refine (X10_no_file_read_without_TLS example_lib no_files_lib
            (with_files "redis://host:6379" "ca.pem" "client.key" "client.crt")
            init eq_refl _).
  intros u Hu. injection Hu as <-. left. reflexivity.
Defined.
